(** * Kalshi liquidity-provider bot: exchange client, risk gates, order pairing

    A shallow embedding of [kalshi-bot/kalshi_api.py],
    [kalshi-bot/trading_bot_CORRECTED.py] and [kalshi-bot/trading_bot.py].

    Python values are modelled as the interpreter has them: [int] is an
    unbounded [Z], [float] is an IEEE binary64 (the kernel's primitive
    [float]), a raised exception is the [Raise] branch of [result].
    Clock reads and the exchange's answers are explicit inputs. Log lines
    are not part of the model. *)

From Stdlib Require Import ZArith Lia List String Bool.
From Stdlib Require Import Floats.PrimFloat Floats.SpecFloat Floats.FloatOps.
From stdpp Require Import base option gmap strings pretty.
From stdpp Require Import sorting.

Set Warnings "-inexact-float,-register-all".

Import ListNotations.

Local Open Scope string_scope.
Local Open Scope list_scope.
Local Open Scope Z_scope.

(** ** Exceptions and the error monad *)

Inductive exn : Type :=
| ZeroDivisionError
| OverflowError
| ValueError (msg : string)
| KeyError (key : string)
| RequestsConnectionError (msg : string)
| RequestsTimeout (msg : string)
| RequestsHTTPError (status : Z) (body : string)
| JSONDecodeError (msg : string)
| OtherError (msg : string)
| KalshiAPIError (detail : api_failure)
with api_failure : Type :=
| RequestFailedAfter (attempts : nat) (last_error : option exn)
| ApiErrorDetail (status : Z) (body : string)
| InvalidJsonResponse (msg : string).

Inductive result (A : Type) : Type :=
| Ok (a : A)
| Raise (e : exn).
Arguments Ok {A} a.
Arguments Raise {A} e.

#[global] Instance result_ret : MRet result := fun A a => Ok a.
#[global] Instance result_bind : MBind result := fun A B k r =>
  match r with
  | Ok a => k a
  | Raise e => Raise e
  end.

(** ** Python numbers *)

Module Py.

(** A value that is an [int] or a [float] at run time. *)
Inductive num : Type :=
| PInt (z : Z)
| PFloat (f : float).

(** [float(z)]: round to nearest, ties to even; too large raises. *)
Definition float_of_int (z : Z) : result float :=
  let f := SF2Prim (binary_normalize prec emax z 0 false) in
  if is_infinity f then Raise OverflowError else Ok f.

(** [int(f)]: truncation toward zero; NaN and infinities raise. *)
Definition int_of_float (f : float) : result Z :=
  match Prim2SF f with
  | S754_nan => Raise (ValueError "cannot convert float NaN to integer")
  | S754_infinity _ => Raise OverflowError
  | S754_zero _ => Ok 0
  | S754_finite s m e =>
      let a := if 0 <=? e then Zpos m * 2 ^ e else Zpos m / 2 ^ (- e) in
      Ok (if s then - a else a)
  end.

(** [a / b] on two ints: the correctly rounded quotient. The quotient is
    taken with at least 64 significant bits and a sticky bit for the
    remainder before the final rounding to binary64. *)
Definition int_truediv (a b : Z) : result float :=
  if b =? 0 then Raise ZeroDivisionError
  else if a =? 0 then Ok (if b <? 0 then neg_zero else zero)
  else
    let n := Z.abs a in
    let d := Z.abs b in
    let k := Z.max 0 (64 + Z.log2 d - Z.log2 n) in
    let q := (n * 2 ^ k) / d in
    let r := (n * 2 ^ k) mod d in
    let m := 2 * q + (if r =? 0 then 0 else 1) in
    let sm := if xorb (a <? 0) (b <? 0) then - m else m in
    let f := SF2Prim (binary_normalize prec emax sm (- k - 1) false) in
    if is_infinity f then Raise OverflowError else Ok f.

Definition float_truediv (x y : float) : result float :=
  if is_zero y then Raise ZeroDivisionError else Ok (x / y)%float.

(** Exact order between a float and an int (Python never rounds the int
    for a comparison). [SF_cmp_Z x z] is the sign of [x - z]; [None] for
    NaN. *)
Definition SF_cmp_Z (x : spec_float) (z : Z) : option comparison :=
  match x with
  | S754_nan => None
  | S754_infinity false => Some Gt
  | S754_infinity true => Some Lt
  | S754_zero _ => Some (0 ?= z)
  | S754_finite s m e =>
      let v := if s then Zneg m else Zpos m in
      Some (if 0 <=? e then (v * 2 ^ e ?= z) else (v ?= z * 2 ^ (- e)))
  end.

Definition ltb (a b : num) : bool :=
  match a, b with
  | PInt x, PInt y => x <? y
  | PFloat x, PFloat y => (x <? y)%float
  | PFloat x, PInt y =>
      match SF_cmp_Z (Prim2SF x) y with Some Lt => true | _ => false end
  | PInt x, PFloat y =>
      match SF_cmp_Z (Prim2SF y) x with Some Gt => true | _ => false end
  end.

Definition gtb (a b : num) : bool := ltb b a.

Definition leb (a b : num) : bool :=
  match a, b with
  | PInt x, PInt y => x <=? y
  | PFloat x, PFloat y => (x <=? y)%float
  | PFloat x, PInt y =>
      match SF_cmp_Z (Prim2SF x) y with
      | Some Lt | Some Eq => true
      | _ => false
      end
  | PInt x, PFloat y =>
      match SF_cmp_Z (Prim2SF y) x with
      | Some Gt | Some Eq => true
      | _ => false
      end
  end.

(** Binary arithmetic: an int operand is converted when the other is a
    float. *)
Definition arith (fz : Z -> Z -> Z) (ff : float -> float -> float)
    (a b : num) : result num :=
  match a, b with
  | PInt x, PInt y => Ok (PInt (fz x y))
  | PFloat x, PFloat y => Ok (PFloat (ff x y))
  | PInt x, PFloat y => x' ← float_of_int x; Ok (PFloat (ff x' y))
  | PFloat x, PInt y => y' ← float_of_int y; Ok (PFloat (ff x y'))
  end.

Definition add := arith Z.add PrimFloat.add.
Definition sub := arith Z.sub PrimFloat.sub.
Definition mul := arith Z.mul PrimFloat.mul.

Definition truediv (a b : num) : result num :=
  match a, b with
  | PInt x, PInt y => f ← int_truediv x y; Ok (PFloat f)
  | PFloat x, PFloat y => f ← float_truediv x y; Ok (PFloat f)
  | PInt x, PFloat y =>
      x' ← float_of_int x; f ← float_truediv x' y; Ok (PFloat f)
  | PFloat x, PInt y =>
      y' ← float_of_int y; f ← float_truediv x y'; Ok (PFloat f)
  end.

Definition abs (a : num) : num :=
  match a with
  | PInt x => PInt (Z.abs x)
  | PFloat x => PFloat (PrimFloat.abs x)
  end.

(** [max(a, b)] and [min(a, b)] keep the first argument unless the second
    is strictly better. *)
Definition max (a b : num) : num := if gtb b a then b else a.
Definition min (a b : num) : num := if ltb b a then b else a.

Definition int (a : num) : result Z :=
  match a with
  | PInt x => Ok x
  | PFloat x => int_of_float x
  end.

End Py.

Import Py.

(** ** Configuration ([trading_bot_CORRECTED.py], module level)

    A rejection's message is represented by a constructor that carries the
    value the message reports; the formatting of the text is not modelled. *)

Definition KALSHI_FEE_PER_CONTRACT : Z := 2.
Definition MIN_PROFIT_CENTS : Z := 1.
Definition USE_KELLY_SIZING : bool := true.
Definition RISK_PER_TRADE_PCT : float := 0.01%float.
Definition MAX_POSITION_CONTRACTS : Z := 100.
Definition MIN_POSITION_CONTRACTS : Z := 1.
Definition DAILY_LOSS_LIMIT_CENTS : Z := 5000.
Definition MAX_DRAWDOWN_PCT : float := 0.10%float.
Definition MAX_POSITION_VALUE_CENTS : Z := 10000.
Definition MAX_EXPOSURE_CENTS : Z := 5000.
Definition ORDERS_PER_MINUTE : Z := 10.

(** ** CircuitBreaker *)

Module CircuitBreaker.

Record t : Type := mk {
  daily_loss_limit : Z;
  max_drawdown_pct : float;
  max_position_value : Z;
  orders_per_minute_limit : Z;
  start_balance : Z;
  peak_balance : Z;
  daily_pnl : Z;
  order_timestamps : list float;
  last_reset_date : Z  (* a calendar date, as its day number *)
}.

Inductive reason : Type :=
| OK
| DailyLossLimitExceeded (pnl : Z)
| MaxDrawdownExceeded (drawdown : float)
| PositionTooLarge (position_value : Z)
| RateLimit (recent : nat).

(** [CircuitBreaker()] constructed on local date [today]. *)
Definition init (today : Z) : t :=
  mk DAILY_LOSS_LIMIT_CENTS MAX_DRAWDOWN_PCT MAX_POSITION_VALUE_CENTS
     ORDERS_PER_MINUTE 0 0 0 [] today.

Definition reset_if_new_day (today : Z) (cb : t) : t * bool :=
  if negb (today =? last_reset_date cb) then
    (mk (daily_loss_limit cb) (max_drawdown_pct cb) (max_position_value cb)
        (orders_per_minute_limit cb) (start_balance cb) (peak_balance cb)
        0 [] today, true)
  else (cb, false).

Definition set_peak_balance (b : Z) (cb : t) : t :=
  mk (daily_loss_limit cb) (max_drawdown_pct cb) (max_position_value cb)
     (orders_per_minute_limit cb) (start_balance cb) b
     (daily_pnl cb) (order_timestamps cb) (last_reset_date cb).

(** [recent_orders = [t for t in self.order_timestamps if now - t < 60]] *)
Definition recent_orders (now : float) (ts : list float) : list float :=
  List.filter (fun t => Py.ltb (PFloat (now - t)%float) (PInt 60)) ts.

(** [check_trade_allowed], with the local date [today] and the reading
    [now] of [time.time()] as inputs. The breaker is returned as the call
    leaves it, also when the drawdown division raises. *)
Definition check_trade_allowed (today : Z) (now : float)
    (current_balance position_value : Z) (cb0 : t)
    : t * result (bool * reason) :=
  let cb1 := fst (reset_if_new_day today cb0) in
  let cb := if peak_balance cb1 <? current_balance
            then set_peak_balance current_balance cb1 else cb1 in
  (cb,
   if daily_pnl cb <? - daily_loss_limit cb then
     Ok (false, DailyLossLimitExceeded (daily_pnl cb))
   else
     chk ← (if 0 <? peak_balance cb then
              drawdown ← int_truediv (peak_balance cb - current_balance)
                                     (peak_balance cb);
              Ok (if (max_drawdown_pct cb <? drawdown)%float
                  then Some drawdown else None)
            else Ok None);
     match chk with
     | Some drawdown => Ok (false, MaxDrawdownExceeded drawdown)
     | None =>
         if max_position_value cb <? position_value then
           Ok (false, PositionTooLarge position_value)
         else
           let recent := recent_orders now (order_timestamps cb) in
           if orders_per_minute_limit cb <=? Z.of_nat (length recent) then
             Ok (false, RateLimit (length recent))
           else Ok (true, OK)
     end).

Definition record_order (now : float) (cb : t) : t :=
  mk (daily_loss_limit cb) (max_drawdown_pct cb) (max_position_value cb)
     (orders_per_minute_limit cb) (start_balance cb) (peak_balance cb)
     (daily_pnl cb) (order_timestamps cb ++ [now]) (last_reset_date cb).

Definition record_pnl (pnl_cents : Z) (cb : t) : t :=
  mk (daily_loss_limit cb) (max_drawdown_pct cb) (max_position_value cb)
     (orders_per_minute_limit cb) (start_balance cb) (peak_balance cb)
     (daily_pnl cb + pnl_cents) (order_timestamps cb) (last_reset_date cb).

End CircuitBreaker.

(** ** InventoryManager *)

Module InventoryManager.

Record t : Type := mk {
  max_exposure : Z;
  yes_contracts : Z;
  no_contracts : Z;
  avg_yes_price : num;
  avg_no_price : num
}.

Inductive reason : Type :=
| OK
| WouldExceedMaxExposure (new_exposure : num).

Definition init (max_exposure : Z) : t :=
  mk max_exposure 0 0 (PInt 50) (PInt 50).

Record exposure : Type := mk_exposure {
  e_yes_contracts : Z;
  e_no_contracts : Z;
  yes_value : num;
  no_value : num;
  net_exposure : num;
  imbalance_pct : num
}.

Definition get_exposure (inv : t) : result exposure :=
  yes_value ← Py.mul (PInt (yes_contracts inv)) (avg_yes_price inv);
  no_value ← Py.mul (PInt (no_contracts inv)) (avg_no_price inv);
  net ← Py.sub yes_value no_value;
  total_value ← Py.add yes_value no_value;
  imbalance ← Py.truediv (Py.abs net) (Py.max total_value (PInt 1));
  Ok (mk_exposure (yes_contracts inv) (no_contracts inv)
                  yes_value no_value (Py.abs net) imbalance).

(** The estimate of the values after the trade, as [can_add_position]
    computes it. *)
Definition new_values (inv : t) (side : string) (quantity price_cents : Z)
    : result (num * num) :=
  if String.eqb side "yes" then
    new_no_value ← Py.mul (PInt (no_contracts inv)) (avg_no_price inv);
    Ok (PInt ((yes_contracts inv + quantity) * price_cents), new_no_value)
  else
    new_yes_value ← Py.mul (PInt (yes_contracts inv)) (avg_yes_price inv);
    Ok (new_yes_value, PInt ((no_contracts inv + quantity) * price_cents)).

Definition can_add_position (inv : t) (side : string)
    (quantity price_cents : Z) : result (bool * reason) :=
  _ ← get_exposure inv;
  '(new_yes_value, new_no_value) ← new_values inv side quantity price_cents;
  d ← Py.sub new_yes_value new_no_value;
  let new_exposure := Py.abs d in
  if Py.gtb new_exposure (PInt (max_exposure inv)) then
    Ok (false, WouldExceedMaxExposure new_exposure)
  else Ok (true, OK).

(** [add_position] updates the contract count before it divides, so the
    count is already changed when the division raises. *)
Definition add_position (inv : t) (side : string)
    (quantity price_cents : Z) : t * result unit :=
  if String.eqb side "yes" then
    match (c ← Py.mul (PInt (yes_contracts inv)) (avg_yes_price inv);
           Py.add c (PInt (quantity * price_cents))) with
    | Raise e => (inv, Raise e)
    | Ok total_cost =>
        let n := yes_contracts inv + quantity in
        match Py.truediv total_cost (PInt n) with
        | Raise e =>
            (mk (max_exposure inv) n (no_contracts inv)
                (avg_yes_price inv) (avg_no_price inv), Raise e)
        | Ok avg =>
            (mk (max_exposure inv) n (no_contracts inv)
                avg (avg_no_price inv), Ok tt)
        end
    end
  else
    match (c ← Py.mul (PInt (no_contracts inv)) (avg_no_price inv);
           Py.add c (PInt (quantity * price_cents))) with
    | Raise e => (inv, Raise e)
    | Ok total_cost =>
        let n := no_contracts inv + quantity in
        match Py.truediv total_cost (PInt n) with
        | Raise e =>
            (mk (max_exposure inv) (yes_contracts inv) n
                (avg_yes_price inv) (avg_no_price inv), Raise e)
        | Ok avg =>
            (mk (max_exposure inv) (yes_contracts inv) n
                (avg_yes_price inv) avg, Ok tt)
        end
    end.

End InventoryManager.

(** ** Position sizing *)

Definition clamp_position (position_size : Z) : Z :=
  Z.min (Z.max MIN_POSITION_CONTRACTS position_size) MAX_POSITION_CONTRACTS.

Definition calculate_position_size_kelly (account_balance_cents : Z)
    (win_prob : num) (avg_win_cents avg_loss_cents : Z) : result Z :=
  if avg_loss_cents <=? 0 then Ok MIN_POSITION_CONTRACTS
  else
    odds ← int_truediv avg_win_cents avg_loss_cents;
    a ← Py.mul (PFloat odds) win_prob;
    b ← Py.sub (PInt 1) win_prob;
    c ← Py.sub a b;
    kelly_frac ← Py.truediv c (PFloat odds);
    h ← Py.mul kelly_frac (PFloat 0.5%float);
    let kelly_frac := Py.max (PInt 0) h in
    let kelly_frac := Py.min kelly_frac (PFloat 0.05%float) in
    avg_price ← int_truediv (avg_win_cents + avg_loss_cents) 2;
    risk_amount ← Py.mul (PInt account_balance_cents) kelly_frac;
    q ← Py.truediv risk_amount (PFloat avg_price);
    position_size ← Py.int q;
    Ok (clamp_position position_size).

Definition calculate_position_size_fixed_pct (account_balance_cents : Z)
    (risk_pct : float) : result Z :=
  let avg_contract_price := 50 in
  risk_amount ← Py.mul (PInt account_balance_cents) (PFloat risk_pct);
  q ← Py.truediv risk_amount (PInt avg_contract_price);
  position_size ← Py.int q;
  Ok (clamp_position position_size).

(** ** Markets and opportunities

    A market dictionary as [get_liquid_markets] builds it; a quote that the
    exchange did not send is [0] (the default of [details.get]). *)

Record Market : Type := mk_market {
  id : string;
  title : string;
  volume : Z;
  yes_bid : Z;
  yes_ask : Z;
  no_bid : Z;
  no_ask : Z;
  close_time : string
}.

Record Opportunity : Type := mk_opportunity {
  type : string;
  buy_price : Z;
  sell_price : Z;
  spread : Z;
  fees : Z;
  net_profit : Z;
  profit_pct : num
}.

(** [(net_profit / bid) * 100 if bid > 0 else 0] *)
Definition profit_pct_of (net_profit bid : Z) : result num :=
  if 0 <? bid then
    q ← int_truediv net_profit bid;
    Py.mul (PFloat q) (PInt 100)
  else Ok (PInt 0).

Definition calculate_spread (market : Market) : result (option Opportunity) :=
  let min_spread := KALSHI_FEE_PER_CONTRACT * 2 + MIN_PROFIT_CENTS in
  let check_no :=
    if negb (no_bid market =? 0) && negb (no_ask market =? 0) then
      let spread := no_ask market - no_bid market in
      if min_spread <=? spread then
        let fees := KALSHI_FEE_PER_CONTRACT * 2 in
        let net_profit := spread - fees in
        profit_pct ← profit_pct_of net_profit (no_bid market);
        Ok (Some (mk_opportunity "no" (no_bid market) (no_ask market)
                                 spread fees net_profit profit_pct))
      else Ok None
    else Ok None in
  if negb (yes_bid market =? 0) && negb (yes_ask market =? 0) then
    let spread := yes_ask market - yes_bid market in
    if min_spread <=? spread then
      let fees := KALSHI_FEE_PER_CONTRACT * 2 in
      let net_profit := spread - fees in
      profit_pct ← profit_pct_of net_profit (yes_bid market);
      Ok (Some (mk_opportunity "yes" (yes_bid market) (yes_ask market)
                               spread fees net_profit profit_pct))
    else check_no
  else check_no.

(** [determine_position_size]; the strategy switch [USE_KELLY_SIZING] is an
    argument so that both branches can be stated. *)
Definition determine_position_size (use_kelly_sizing : bool)
    (account_balance_cents : Z) (opportunity : Opportunity) : result Z :=
  if use_kelly_sizing then
    edge ← int_truediv (net_profit opportunity) (buy_price opportunity);
    half ← float_truediv edge 2%float;
    let win_prob := (0.5 + half)%float in
    let avg_win := net_profit opportunity in
    let avg_loss := buy_price opportunity in
    calculate_position_size_kelly account_balance_cents (PFloat win_prob)
                                  avg_win avg_loss
  else
    calculate_position_size_fixed_pct account_balance_cents RISK_PER_TRADE_PCT.

(** ** JSON values and response dictionaries *)

Inductive json : Type :=
| JNull
| JBool (b : bool)
| JInt (z : Z)
| JFloat (f : float)
| JStr (s : string)
| JList (l : list json)
| JObject (kv : list (string * json)).

(** Python truth value: [not v] is [negb (truthy v)]. *)
Definition truthy (v : json) : bool :=
  match v with
  | JNull => false
  | JBool b => b
  | JInt z => negb (z =? 0)
  | JFloat f => negb (is_zero f)
  | JStr s => negb (String.eqb s "")
  | JList l => match l with [] => false | _ => true end
  | JObject kv => match kv with [] => false | _ => true end
  end.

(** [d.get(k)]: [None] (here [JNull]) when the key is missing. *)
Definition dict_get (d : gmap string json) (k : string) : json :=
  default JNull (d !! k).

Definition dict_is_empty (d : gmap string json) : bool :=
  bool_decide (d = ∅).

(** ** KalshiClient ([kalshi_api.py])

    The network is an input: [srv n req] is what the [n]-th HTTP exchange of
    the run does when [req] is sent, either a body or the exception that
    [requests], [raise_for_status] or [response.json] raises. The trace
    records the requests sent and the calls to [time.sleep], in order. The
    bearer token attached to a request is not modelled. *)

Module KalshiClient.

Definition MAX_RETRIES : nat := 3.

Record http_request : Type := mk_request {
  method : string;
  endpoint : string;
  data : option (gmap string json)
}.

Inductive http_outcome : Type :=
| Raised (e : exn)
| EmptyBody
| JsonBody (d : gmap string json).

Inductive event : Type :=
| Sent (r : http_request)
| Slept (seconds : Z).

Definition server : Type := nat -> http_request -> http_outcome.

Definition is_sent (ev : event) : bool :=
  match ev with Sent _ => true | Slept _ => false end.

Definition sent_count (tr : list event) : nat :=
  length (List.filter is_sent tr).

Definition sleeps (tr : list event) : list Z :=
  omap (fun ev => match ev with Slept s => Some s | Sent _ => None end) tr.

(** [if attempt < self.max_retries - 1: time.sleep(2 ** attempt)] *)
Definition backoff (max_retries attempt : nat) (tr : list event)
    : list event :=
  if Z.of_nat attempt <? Z.of_nat max_retries - 1
  then tr ++ [Slept (2 ^ Z.of_nat attempt)] else tr.

(** The body of [for attempt in range(self.max_retries)], from iteration
    [attempt] on, with [remaining] iterations left. *)
Fixpoint request_loop (srv : server) (max_retries : nat)
    (req : http_request) (remaining attempt : nat)
    (last_error : option exn) (tr : list event)
    : result (gmap string json) * list event :=
  match remaining with
  | O => (Raise (KalshiAPIError (RequestFailedAfter max_retries last_error)),
          tr)
  | S remaining' =>
      if String.eqb (method req) "GET" || String.eqb (method req) "POST"
      then
        let tr1 := tr ++ [Sent req] in
        match srv (sent_count tr) req with
        | JsonBody d => (Ok d, tr1)
        | EmptyBody => (Ok ∅, tr1)
        | Raised e =>
            match e with
            | RequestsConnectionError _ | RequestsTimeout _ =>
                request_loop srv max_retries req remaining' (S attempt)
                             (Some e) (backoff max_retries attempt tr1)
            | RequestsHTTPError status body =>
                (Raise (KalshiAPIError (ApiErrorDetail status body)), tr1)
            | JSONDecodeError msg =>
                (Raise (KalshiAPIError (InvalidJsonResponse msg)), tr1)
            | _ =>
                request_loop srv max_retries req remaining' (S attempt)
                             (Some e) (backoff max_retries attempt tr1)
            end
        end
      else
        let e := ValueError ("Unsupported method: " +:+ method req) in
        request_loop srv max_retries req remaining' (S attempt)
                     (Some e) (backoff max_retries attempt tr)
  end.

Definition _request (srv : server) (max_retries : nat)
    (method endpoint : string) (data : option (gmap string json))
    (tr : list event) : result (gmap string json) * list event :=
  request_loop srv max_retries (mk_request method endpoint data)
               max_retries 0 None tr.

Definition order_body (market_id side : string) (price count : Z)
    (order_type : string) : gmap string json :=
  <["market_id" := JStr market_id]>
    (<["side" := JStr side]>
       (<["price" := JInt price]>
          (<["count" := JInt count]>
             (<["type" := JStr order_type]> ∅)))).

Definition place_order (srv : server) (max_retries : nat)
    (market_id side : string) (price count : Z) (order_type : string)
    (tr : list event) : result (gmap string json) * list event :=
  if negb (bool_decide (side ∈ ["yes"; "no"])) then
    (Raise (ValueError ("Invalid side: " +:+ side
                        +:+ ". Must be 'yes' or 'no'")), tr)
  else if negb ((1 <=? price) && (price <=? 99)) then
    (Raise (ValueError ("Invalid price: " +:+ pretty price
                        +:+ ". Must be between 1 and 99 cents")), tr)
  else if count <=? 0 then
    (Raise (ValueError ("Invalid count: " +:+ pretty count
                        +:+ ". Must be positive")), tr)
  else if negb (bool_decide (order_type ∈ ["limit"; "market"])) then
    (Raise (ValueError ("Invalid order_type: " +:+ order_type
                        +:+ ". Must be 'limit' or 'market'")), tr)
  else
    _request srv max_retries "POST" "/orders"
             (Some (order_body market_id side price count order_type)) tr.

Definition cancel_order (srv : server) (max_retries : nat)
    (order_id : string) (tr : list event)
    : result (gmap string json) * list event :=
  _request srv max_retries "POST" ("/orders/" +:+ order_id +:+ "/cancel")
           None tr.

End KalshiClient.

(** ** The client as the bots see it

    [place_market_making_orders] only calls three methods of its client.
    Their answers are inputs of the model: answer [n] is the one given to
    the call made after [n] earlier calls. The balance dictionary is
    represented by its ['cash'] entry in integer cents ([None]: no such
    key). Every call is logged. *)

Record order_args : Type := mk_order {
  o_market_id : string;
  o_side : string;
  o_price : Z;
  o_count : Z;
  o_type : string
}.

Inductive client_call : Type :=
| GetBalance
| PlaceOrder (o : order_args)
| CancelOrder (order_id : json).

Record Client : Type := mk_client {
  get_balance : nat -> result (option Z);
  place_order : nat -> order_args -> result (gmap string json);
  cancel_order : nat -> json -> result (gmap string json)
}.


Definition is_place (c : client_call) : bool :=
  match c with PlaceOrder _ => true | _ => false end.

(** The clock readings one run of [place_market_making_orders] takes. *)
Record Clock : Type := mk_clock {
  today : Z;            (* [datetime.now().date()] in [reset_if_new_day] *)
  check_time : float;   (* [time.time()] in [check_trade_allowed] *)
  record_time : float   (* [time.time()] in [record_order] *)
}.

(** ** TradingBot ([trading_bot_CORRECTED.py]) *)

Record TradingBot : Type := mk_bot {
  circuit_breaker : CircuitBreaker.t;
  inventory_manager : InventoryManager.t;
  calls : list client_call
}.

Record TradeResult : Type := mk_result {
  r_market_id : string;
  r_orders : list (gmap string json);
  r_expected_profit : Z;
  r_position_size : Z
}.

Definition log_call (c : client_call) (bot : TradingBot) : TradingBot :=
  mk_bot (circuit_breaker bot) (inventory_manager bot) (calls bot ++ [c]).

Definition set_circuit_breaker (cb : CircuitBreaker.t) (bot : TradingBot)
    : TradingBot :=
  mk_bot cb (inventory_manager bot) (calls bot).

(** [for order in orders: try: cancel_order(order.get('order_id'))
    except: pass] *)
Fixpoint cancel_all (cl : Client) (orders : list (gmap string json))
    (bot : TradingBot) : TradingBot :=
  match orders with
  | [] => bot
  | order :: rest =>
      let oid := dict_get order "order_id" in
      let _ := cancel_order cl (length (calls bot)) oid in
      cancel_all cl rest (log_call (CancelOrder oid) bot)
  end.

Definition place_market_making_orders (cl : Client) (clock : Clock)
    (market : Market) (bot : TradingBot)
    : result (option TradeResult) * TradingBot :=
  match calculate_spread market with
  | Raise e => (Raise e, bot)
  | Ok None => (Ok None, bot)
  | Ok (Some opportunity) =>
      let bot1 := log_call GetBalance bot in
      match get_balance cl (length (calls bot)) with
      | Raise _ => (Ok None, bot1)
      | Ok cash =>
          let account_balance_cents := default 0 cash in
          match determine_position_size USE_KELLY_SIZING
                  account_balance_cents opportunity with
          | Raise e => (Raise e, bot1)
          | Ok position_size =>
              let position_value := buy_price opportunity * position_size in
              let '(cb, allowed) :=
                CircuitBreaker.check_trade_allowed
                  (today clock) (check_time clock)
                  account_balance_cents position_value
                  (circuit_breaker bot1) in
              let bot2 := set_circuit_breaker cb bot1 in
              match allowed with
              | Raise e => (Raise e, bot2)
              | Ok (false, _) => (Ok None, bot2)
              | Ok (true, _) =>
                  match InventoryManager.can_add_position
                          (inventory_manager bot2) (type opportunity)
                          position_size (buy_price opportunity) with
                  | Raise e => (Raise e, bot2)
                  | Ok (false, _) => (Ok None, bot2)
                  | Ok (true, _) =>
                      (* the [try] block; [orders = []] so far *)
                      let buy := mk_order (id market) (type opportunity)
                                   (buy_price opportunity + 1)
                                   position_size "limit" in
                      let bot3 := log_call (PlaceOrder buy) bot2 in
                      match place_order cl (length (calls bot2)) buy with
                      | Raise _ => (Ok None, cancel_all cl [] bot3)
                      | Ok buy_order =>
                          let hedge_side :=
                            if String.eqb (type opportunity) "yes"
                            then "no" else "yes" in
                          let hedge_price := 100 - sell_price opportunity in
                          let hedge := mk_order (id market) hedge_side
                                         hedge_price position_size "limit" in
                          let bot4 := log_call (PlaceOrder hedge) bot3 in
                          match place_order cl (length (calls bot3)) hedge with
                          | Raise _ =>
                              (Ok None, cancel_all cl [buy_order] bot4)
                          | Ok sell_order =>
                              let cb' := CircuitBreaker.record_order
                                           (record_time clock)
                                           (circuit_breaker bot4) in
                              let expected_profit :=
                                net_profit opportunity * position_size in
                              (Ok (Some (mk_result (id market)
                                           [buy_order; sell_order]
                                           expected_profit position_size)),
                               set_circuit_breaker cb' bot4)
                          end
                      end
                  end
              end
          end
      end
  end.

(** ** TradingBot ([trading_bot.py]) *)

Module TradingBotOriginal.

Record Opportunity : Type := mk_opportunity {
  type : string;
  buy_price : Z;
  sell_price : Z;
  spread : Z;
  profit_pct : num
}.

Record TradeResult : Type := mk_result {
  r_market_id : string;
  r_orders : list (gmap string json);
  r_expected_profit : Z
}.

Definition calculate_spread (market : Market)
    : result (option Opportunity) :=
  let check_no :=
    if negb (no_bid market =? 0) && negb (no_ask market =? 0) then
      let spread := no_ask market - no_bid market in
      if 2 <=? spread then
        profit_pct ← profit_pct_of spread (no_bid market);
        Ok (Some (mk_opportunity "no" (no_bid market) (no_ask market)
                                 spread profit_pct))
      else Ok None
    else Ok None in
  if negb (yes_bid market =? 0) && negb (yes_ask market =? 0) then
    let spread := yes_ask market - yes_bid market in
    if 2 <=? spread then
      profit_pct ← profit_pct_of spread (yes_bid market);
      Ok (Some (mk_opportunity "yes" (yes_bid market) (yes_ask market)
                               spread profit_pct))
    else check_no
  else check_no.

(** The handlers' loop: [order_id = order.get('order_id'); if order_id:
    cancel_order(order_id)], exceptions swallowed. *)
Fixpoint cancel_all (cl : Client) (orders : list (gmap string json))
    (calls : list client_call) : list client_call :=
  match orders with
  | [] => calls
  | order :: rest =>
      let oid := dict_get order "order_id" in
      if truthy oid then
        let _ := cancel_order cl (length calls) oid in
        cancel_all cl rest (calls ++ [CancelOrder oid])
      else cancel_all cl rest calls
  end.

(** [try: self.client.cancel_order(order_id) except: pass] *)
Definition cancel_quietly (cl : Client) (oid : json)
    (calls : list client_call) : list client_call :=
  let _ := cancel_order cl (length calls) oid in
  calls ++ [CancelOrder oid].

Definition place_market_making_orders (cl : Client) (market : Market)
    (calls : list client_call)
    : result (option TradeResult) * list client_call :=
  match calculate_spread market with
  | Raise e => (Raise e, calls)
  | Ok None => (Ok None, calls)
  | Ok (Some opportunity) =>
      let position_size := 10 in
      let buy := mk_order (id market) (type opportunity)
                   (buy_price opportunity + 1) position_size "limit" in
      let calls1 := calls ++ [PlaceOrder buy] in
      match place_order cl (length calls) buy with
      | Raise _ => (Ok None, cancel_all cl [] calls1)
      | Ok buy_order =>
          if dict_is_empty buy_order then (Ok None, calls1)
          else
            let order_id := dict_get buy_order "order_id" in
            if negb (truthy order_id) then (Ok None, calls1)
            else
              let hedge_side :=
                if String.eqb (type opportunity) "no"
                then "yes" else "no" in
              let hedge := mk_order (id market) hedge_side
                             (100 - (sell_price opportunity - 1))
                             position_size "limit" in
              let calls2 := calls1 ++ [PlaceOrder hedge] in
              match place_order cl (length calls1) hedge with
              | Raise _ => (Ok None, cancel_all cl [buy_order] calls2)
              | Ok sell_order =>
                  if dict_is_empty sell_order then
                    (Ok None, cancel_quietly cl order_id calls2)
                  else if negb (truthy (dict_get sell_order "order_id"))
                  then (Ok None, cancel_quietly cl order_id calls2)
                  else
                    (Ok (Some (mk_result (id market)
                                 [buy_order; sell_order]
                                 (spread opportunity * position_size))),
                     calls2)
              end
      end
  end.

End TradingBotOriginal.

(** ** Vocabulary of the statements *)

Definition is_Ok {A} (r : result A) : bool :=
  match r with Ok _ => true | Raise _ => false end.

Definition min_viable_spread : Z :=
  2 * KALSHI_FEE_PER_CONTRACT + MIN_PROFIT_CENTS.

(** A quote of the market data model: whole cents between 0 and 100. *)
Definition quote_in_range (q : Z) : Prop := 0 <= q <= 100.

(** Scenario 1 of the specification: yes 40/45, fee 2, minimum profit 1. *)
Definition scenario1 : Market := mk_market "M1" "Scenario 1" 2000 40 45 0 0 "".

(** What a caller can do with a breaker between two dates. *)
Inductive breaker_call : Type :=
| Check (today : Z) (now : float) (current_balance position_value : Z)
| RecordOrder (now : float)
| RecordPnl (pnl_cents : Z).

(** Run a sequence of calls; the answers of the checks, in order. *)
Fixpoint run_breaker (cs : list breaker_call) (cb : CircuitBreaker.t)
    : list (result (bool * CircuitBreaker.reason)) * CircuitBreaker.t :=
  match cs with
  | [] => ([], cb)
  | Check today now balance value :: rest =>
      let '(cb', r) :=
        CircuitBreaker.check_trade_allowed today now balance value cb in
      let '(rs, cb'') := run_breaker rest cb' in
      (r :: rs, cb'')
  | RecordOrder now :: rest =>
      run_breaker rest (CircuitBreaker.record_order now cb)
  | RecordPnl pnl :: rest =>
      run_breaker rest (CircuitBreaker.record_pnl pnl cb)
  end.



(** A day of calls after the limit was crossed on date 1. *)
Definition breaker_day1_calls : list breaker_call :=
  [ Check 1 100%float 50000 400; RecordOrder 101%float; RecordPnl (-3);
    Check 1 130%float 100000 0 ].

(** The estimated exposure a candidate trade is judged on:
    [abs(new_yes_value - new_no_value)]. *)
Definition projected_exposure (inv : InventoryManager.t) (side : string)
    (quantity price_cents : Z) : result num :=
  '(new_yes_value, new_no_value) ←
    InventoryManager.new_values inv side quantity price_cents;
  d ← Py.sub new_yes_value new_no_value;
  Ok (Py.abs d).



(** An inventory holding 100 yes contracts bought at 50 cents. *)
Definition held_inventory : InventoryManager.t :=
  fst (InventoryManager.add_position
         (InventoryManager.init MAX_EXPOSURE_CENTS) "yes" 100 50).

(** Opportunities with a zero net profit and with a zero buy price. *)
Definition zero_profit_opportunity : Opportunity :=
  mk_opportunity "yes" 40 44 4 4 0 (PFloat 0%float).

Definition zero_price_opportunity : Opportunity :=
  mk_opportunity "yes" 0 7 7 4 3 (PInt 0).


(** An exchange that never answers in time. *)
Definition always_times_out : KalshiClient.server :=
  fun _ _ => KalshiClient.Raised (RequestsTimeout "timed out").

(** The four conditions [place_order] requires of its arguments. *)
Definition valid_order (side : string) (price count : Z)
    (order_type : string) : Prop :=
  (side = "yes" \/ side = "no") /\ 1 <= price <= 99 /\ 0 < count /\
  (order_type = "limit" \/ order_type = "market").

(** Inputs of the order-placement runs: a market quoted yes 40/90, a bot
    on date 1 that has traded nothing, an account of 500 dollars. *)
Definition wide_market : Market :=
  mk_market "M3" "Wide market" 5000 40 90 0 0 "".

Definition fresh_bot : TradingBot :=
  mk_bot (CircuitBreaker.init 1) (InventoryManager.init MAX_EXPOSURE_CENTS) [].

Definition noon : Clock := mk_clock 1 1000%float 1001%float.

Definition order_response (order_id : string) : gmap string json :=
  {[ "order_id" := JStr order_id ]}.

(** A client whose orders are all accepted. *)
Definition filling_client : Client :=
  mk_client (fun _ => Ok (Some 50000))
            (fun n _ => Ok (order_response ("ord-" +:+ pretty n)))
            (fun _ _ => Ok ∅).

(** A client that answers every order without an identifier. *)
Definition unidentified_client : Client :=
  mk_client (fun _ => Ok (Some 50000))
            (fun _ _ => Ok {[ "status" := JStr "pending" ]})
            (fun _ _ => Ok ∅).




Definition orders_since (n : nat) (calls : list client_call)
    : list client_call :=
  List.filter is_place (drop n calls).


(** ** KalshiClient, the read operations ([kalshi_api.py])

    Each of them wraps [_request] in [try: ... except KalshiAPIError: raise
    except Exception: return <default>] and checks the shape of the answer.
    A nested JSON object is the association list of its members in the order
    of the text; as a dictionary, a later member replaces an earlier one of
    the same name. *)

Module KalshiClientQueries.
Import KalshiClient.

Definition object_dict (kv : list (string * json)) : gmap string json :=
  fold_left (fun d p => <[fst p := snd p]> d) kv ∅.

Definition no_markets : gmap string json := {[ "markets" := JList [] ]}.
Definition no_balance : gmap string json := {[ "balance" := JObject [] ]}.
Definition no_orders : gmap string json := {[ "orders" := JList [] ]}.
Definition no_positions : gmap string json := {[ "positions" := JList [] ]}.

Definition get_exchange_status (srv : server) (max_retries : nat)
    (tr : list event) : result (gmap string json) * list event :=
  _request srv max_retries "GET" "/exchange/status" None tr.

Definition get_markets (srv : server) (max_retries : nat) (limit : Z)
    (status : string) (tr : list event)
    : result (gmap string json) * list event :=
  let params := <["limit" := JInt limit]> (<["status" := JStr status]> ∅) in
  match _request srv max_retries "GET" "/markets" (Some params) tr with
  | (Ok response, tr') =>
      (if dict_is_empty response then Ok no_markets
       else match response !! "markets" with
            | None => Ok no_markets
            | Some (JList _) => Ok response
            | Some _ => Ok no_markets
            end, tr')
  | (Raise (KalshiAPIError f), tr') => (Raise (KalshiAPIError f), tr')
  | (Raise _, tr') => (Ok no_markets, tr')
  end.

Definition get_market (srv : server) (max_retries : nat) (market_id : string)
    (tr : list event) : result (gmap string json) * list event :=
  match _request srv max_retries "GET" ("/markets/" +:+ market_id) None tr with
  | (Ok response, tr') =>
      (if dict_is_empty response then Ok ∅ else Ok response, tr')
  | (Raise (KalshiAPIError f), tr') => (Raise (KalshiAPIError f), tr')
  | (Raise _, tr') => (Ok ∅, tr')
  end.

Definition get_orderbook (srv : server) (max_retries : nat)
    (market_id : string) (tr : list event)
    : result (gmap string json) * list event :=
  _request srv max_retries "GET"
           ("/markets/" +:+ market_id +:+ "/orderbook") None tr.

Definition get_portfolio (srv : server) (max_retries : nat)
    (tr : list event) : result (gmap string json) * list event :=
  match _request srv max_retries "GET" "/portfolio" None tr with
  | (Ok response, tr') =>
      (if dict_is_empty response then Ok no_balance else Ok response, tr')
  | (Raise (KalshiAPIError f), tr') => (Raise (KalshiAPIError f), tr')
  | (Raise _, tr') => (Ok no_balance, tr')
  end.

Definition get_balance (srv : server) (max_retries : nat)
    (tr : list event) : result (gmap string json) * list event :=
  match get_portfolio srv max_retries tr with
  | (Ok portfolio, tr') =>
      (if dict_is_empty portfolio then Ok ∅
       else match portfolio !! "balance" with
            | None => Ok ∅
            | Some (JObject kv) => Ok (object_dict kv)
            | Some _ => Ok ∅
            end, tr')
  | (Raise (KalshiAPIError f), tr') => (Raise (KalshiAPIError f), tr')
  | (Raise _, tr') => (Ok ∅, tr')
  end.

Definition get_open_orders (srv : server) (max_retries : nat)
    (tr : list event) : result (gmap string json) * list event :=
  match _request srv max_retries "GET" "/orders"
                 (Some (<["status" := JStr "open"]> ∅)) tr with
  | (Ok response, tr') =>
      (if dict_is_empty response then Ok no_orders else Ok response, tr')
  | (Raise (KalshiAPIError f), tr') => (Raise (KalshiAPIError f), tr')
  | (Raise _, tr') => (Ok no_orders, tr')
  end.

Definition get_positions (srv : server) (max_retries : nat)
    (tr : list event) : result (gmap string json) * list event :=
  match _request srv max_retries "GET" "/portfolio/positions" None tr with
  | (Ok response, tr') =>
      (if dict_is_empty response then Ok no_positions else Ok response, tr')
  | (Raise (KalshiAPIError f), tr') => (Raise (KalshiAPIError f), tr')
  | (Raise _, tr') => (Ok no_positions, tr')
  end.

End KalshiClientQueries.

(** ** Vocabulary of the further properties *)

(** A result that is a value or a [KalshiAPIError], nothing else. *)
Definition only_api_error {A} (r : result A) : Prop :=
  match r with
  | Ok _ => True
  | Raise (KalshiAPIError _) => True
  | Raise _ => False
  end.

(** The delays [2 ** a], [2 ** (a+1)], ... of [k] consecutive retries. *)
Definition backoff_schedule (a k : nat) : list Z :=
  List.map (fun i => 2 ^ Z.of_nat i) (seq a k).

(** The exceptions after which [_request] tries again: all but an HTTP
    error status and an undecodable body. *)
Definition is_retried (e : exn) : Prop :=
  match e with
  | RequestsHTTPError _ _ | JSONDecodeError _ => False
  | _ => True
  end.

(** What [_request] makes of an exchange that ends the call. *)
Definition final_answer (o : KalshiClient.http_outcome)
    : option (result (gmap string json)) :=
  match o with
  | KalshiClient.JsonBody d => Some (Ok d)
  | KalshiClient.EmptyBody => Some (Ok ∅)
  | KalshiClient.Raised (RequestsHTTPError status body) =>
      Some (Raise (KalshiAPIError (ApiErrorDetail status body)))
  | KalshiClient.Raised (JSONDecodeError msg) =>
      Some (Raise (KalshiAPIError (InvalidJsonResponse msg)))
  | KalshiClient.Raised _ => None
  end.

(** The trace of [k] failed attempts, the first of them attempt [a]. *)
Definition retry_trace (req : KalshiClient.http_request) (a k : nat)
    : list KalshiClient.event :=
  flat_map (fun i => [KalshiClient.Sent req;
                      KalshiClient.Slept (2 ^ Z.of_nat i)]) (seq a k).

(** An exchange that fails twice with a reset connection, then answers. *)
Definition flaky_server (d : gmap string json) : KalshiClient.server :=
  fun n _ => if (n <? 2)%nat
             then KalshiClient.Raised (RequestsConnectionError "reset")
             else KalshiClient.JsonBody d.


(** ** KalshiClient, the bearer token ([_get_token])

    [jwt.encode] is a function [sign sub exp iat] of the three fields of the
    payload (the key is fixed with the client); [now] is
    [int(time.time())]. *)

Module KalshiToken.

Definition TOKEN_EXPIRY_SECONDS : Z := 300.
Definition TOKEN_BUFFER_SECONDS : Z := 60.

Record t : Type := mk {
  api_key_id : string;
  last_token : option string;
  token_expires : option Z
}.

(** [KalshiClient.__init__]: no token yet. *)
Definition init (api_key_id : string) : t := mk api_key_id None None.

Definition mint (sign : string -> Z -> Z -> string) (now : Z) (c : t)
    : string * t :=
  let token := sign (api_key_id c) (now + TOKEN_EXPIRY_SECONDS) now in
  (token, mk (api_key_id c) (Some token) (Some (now + TOKEN_EXPIRY_SECONDS))).

Definition _get_token (sign : string -> Z -> Z -> string) (now : Z) (c : t)
    : string * t :=
  match last_token c, token_expires c with
  | Some tok, Some exp =>
      if negb (String.eqb tok "") && negb (exp =? 0)
         && (now <? exp - TOKEN_BUFFER_SECONDS)
      then (tok, c)
      else mint sign now c
  | _, _ => mint sign now c
  end.

End KalshiToken.

(** A signature that spells out its payload. *)
Definition toy_sign (sub : string) (exp iat : Z) : string :=
  sub +:+ "." +:+ pretty exp +:+ "." +:+ pretty iat.


(** Calls made on the date [d], whatever they record. *)
Definition same_day (d : Z) (c : breaker_call) : Prop :=
  match c with
  | Check today _ _ _ => today = d
  | _ => True
  end.

(** The times of the orders recorded by a sequence of calls. *)
Definition recorded_orders (cs : list breaker_call) : list float :=
  omap (fun c => match c with RecordOrder now => Some now | _ => None end) cs.

(** A breaker that has seen a balance of 50000 and recorded nine orders. *)
Definition busy_breaker : CircuitBreaker.t :=
  snd (run_breaker
         (Check 1 0%float 50000 100
          :: List.map RecordOrder
               [1; 2; 3; 4; 5; 6; 7; 8; 9]%float)
         (CircuitBreaker.init 1)).


(** A side that [calculate_spread] accepts: both quotes present and the
    spread at least the fees of both legs plus the minimum profit. *)
Definition viable (bid ask : Z) : Prop :=
  bid <> 0 /\ ask <> 0 /\ min_viable_spread <= ask - bid.

(** A result that is not the [ZeroDivisionError]. *)
Definition no_zero_division {A} (r : result A) : Prop :=
  r <> Raise ZeroDivisionError.

(** Scenario 2 with its no side widened to 30/36. *)
Definition no_side_market : Market :=
  mk_market "M2" "No side" 2000 40 43 30 36 "".



(** The same for [trading_bot.py], which asks for no balance. *)
Definition original_run_shape (new : list client_call) (traded : bool)
    : Prop :=
  (new = [] /\ traded = false)
  \/ (exists buy, new = [PlaceOrder buy] /\ traded = false)
  \/ (exists buy hedge,
        new = [PlaceOrder buy; PlaceOrder hedge] /\ traded = true)
  \/ (exists buy hedge oid,
        new = [PlaceOrder buy; PlaceOrder hedge; CancelOrder oid]
        /\ traded = false).

Definition reports_trade {A} (r : result (option A)) : bool :=
  match r with Ok (Some _) => true | _ => false end.


(** A price the exchange quotes: 1 to 99 cents, or 0 for a side without a
    quote. *)
Definition exchange_quote (q : Z) : Prop := 0 <= q <= 99.

(** The two orders of a trade on [opp] for [size] contracts. *)
Definition primary_order (market : Market) (opp : Opportunity) (size : Z)
    : order_args :=
  mk_order (id market) (type opp) (buy_price opp + 1) size "limit".

Definition hedge_order (market : Market) (opp : Opportunity) (size : Z)
    : order_args :=
  mk_order (id market) (if String.eqb (type opp) "yes" then "no" else "yes")
           (100 - sell_price opp) size "limit".

(** A market whose yes side is offered at the full 100 cents. *)
Definition full_ask_market : Market :=
  mk_market "M4" "Full ask" 5000 40 100 0 0 "".


(** ** The scanner and the trading cycle ([trading_bot_CORRECTED.py])

    The listing of [get_markets] and the details of [get_market] are taken
    with the types the exchange documents: identifiers and titles are
    strings, volumes and quotes integers, a field that is missing has the
    default of [details.get]. [get_market ex i market_id] is the answer to
    the lookup of entry [i] of the listing. *)

Definition MIN_VOLUME_THRESHOLD : Z := 1000.

Record Listed : Type := mk_listed {
  market_id : string;
  l_title : string
}.

Record MarketDetails : Type := mk_details {
  d_volume : Z;
  d_close_time : string;
  d_yes_bid : Z;
  d_yes_ask : Z;
  d_no_bid : Z;
  d_no_ask : Z
}.

Record Exchange : Type := mk_exchange {
  get_markets : result (list Listed);
  get_market : nat -> string -> result MarketDetails
}.

Definition market_of (m : Listed) (details : MarketDetails) : Market :=
  mk_market (market_id m) (l_title m) (d_volume details)
            (d_yes_bid details) (d_yes_ask details)
            (d_no_bid details) (d_no_ask details) (d_close_time details).

(** The body of the loop: a lookup that raises is skipped ([continue]). *)
Definition liquid_entry (ex : Exchange) (i : nat) (m : Listed)
    : option Market :=
  match get_market ex i (market_id m) with
  | Raise _ => None
  | Ok details =>
      if MIN_VOLUME_THRESHOLD <? d_volume details
      then Some (market_of m details) else None
  end.

Fixpoint scan (ex : Exchange) (i : nat) (markets : list Listed)
    : list Market :=
  match markets with
  | [] => []
  | m :: rest =>
      match liquid_entry ex i m with
      | Some x => x :: scan ex (S i) rest
      | None => scan ex (S i) rest
      end
  end.

(** [liquid.sort(key=lambda x: x['volume'], reverse=True)]: the sort is
    stable, markets of equal volume keep the order of the listing. *)
Fixpoint insert_by_volume (x : Market) (l : list Market) : list Market :=
  match l with
  | [] => [x]
  | y :: l' =>
      if volume x <? volume y then y :: insert_by_volume x l' else x :: l
  end.

Definition sort_by_volume (l : list Market) : list Market :=
  foldr insert_by_volume [] l.

Definition get_liquid_markets (ex : Exchange) : result (list Market) :=
  markets ← get_markets ex;
  Ok (take 10 (sort_by_volume (scan ex 0 markets))).

(** The entries of the state dictionary that a cycle writes. *)
Record BotState : Type := mk_state {
  last_check : option string;
  total_trades : Z
}.

(** How [run_once] ends: its handler caught an exception, it returned for
    want of markets, or it went through the markets and made these
    profits. *)
Inductive cycle_outcome : Type :=
| Aborted (e : exn)
| NoMarkets
| Completed (profits : list Z).

(** [for market in markets[:5]]: the result of each run is appended to
    [profits] when there is one, and the loop sleeps one second after each
    market. Market [i] of the cycle is traded under the clock [clocks i].
    The last component counts the sleeps. *)
Fixpoint trade_markets (cl : Client) (clocks : nat -> Clock) (i : nat)
    (markets : list Market) (profits : list Z) (bot : TradingBot)
    : result (list Z) * TradingBot * nat :=
  match markets with
  | [] => (Ok profits, bot, 0%nat)
  | market :: rest =>
      match place_market_making_orders cl (clocks i) market bot with
      | (Raise e, bot') => (Raise e, bot', 0%nat)
      | (Ok r, bot') =>
          let profits' :=
            match r with
            | Some t => profits ++ [r_expected_profit t]
            | None => profits
            end in
          let '(res, bot'', n) :=
            trade_markets cl clocks (S i) rest profits' bot' in
          (res, bot'', S n)
      end
  end.

Definition sum_profits (profits : list Z) : Z := foldl Z.add 0 profits.

(** [run_once]: the balance and the exposure are read for the log (their
    divisions by 100 can raise), the scanner is asked, the five best
    markets are traded, and the state is updated at the end. Every
    exception ends the cycle in the handler. [now] is the time written to
    ['last_check']. *)
Definition run_once (cl : Client) (ex : Exchange) (clocks : nat -> Clock)
    (now : string) (bot : TradingBot) (state : BotState)
    : cycle_outcome * TradingBot * BotState * nat :=
  let bot1 := log_call GetBalance bot in
  match (balance ← get_balance cl (length (calls bot));
         _ ← int_truediv (default 0 balance) 100;
         inventory ← InventoryManager.get_exposure (inventory_manager bot1);
         _ ← Py.truediv (InventoryManager.net_exposure inventory) (PInt 100);
         get_liquid_markets ex) with
  | Raise e => (Aborted e, bot1, state, 0%nat)
  | Ok [] => (NoMarkets, bot1, state, 0%nat)
  | Ok markets =>
      match trade_markets cl clocks 0 (take 5 markets) [] bot1 with
      | (Raise e, bot2, n) => (Aborted e, bot2, state, n)
      | (Ok profits, bot2, n) =>
          match profits with
          | [] => (Completed profits, bot2,
                   mk_state (Some now) (total_trades state), n)
          | _ :: _ =>
              match int_truediv (sum_profits profits) 100 with
              | Raise e => (Aborted e, bot2, state, n)
              | Ok _ =>
                  (Completed profits, bot2,
                   mk_state (Some now)
                            (total_trades state
                             + Z.of_nat (length profits)), n)
              end
          end
      end
  end.

(** An exchange with twelve liquid markets and one that is not. *)
Definition busy_exchange : Exchange :=
  mk_exchange
    (Ok (List.map (fun i => mk_listed ("K" +:+ pretty i) "market")
                  (seqZ 0 13)))
    (fun i _ => if Nat.eqb i 3 then Raise (OtherError "lookup failed")
                else Ok (mk_details (900 + 100 * Z.of_nat i) ""
                                    40 90 0 0)).

(** The order of the scanner's answer: no market after a smaller one. *)
Definition volume_descending (a b : Market) : Prop := volume b <= volume a.

(** The markets of [l] that have the volume [v], in the order of [l]. *)
Definition of_volume (v : Z) (l : list Market) : list Market :=
  List.filter (fun m => volume m =? v) l.


(** * Properties *)

(** A closed side condition, settled by evaluating it. *)
Ltac by_evaluation :=
  repeat split; vm_compute; first [reflexivity | intro; discriminate].

(** ** Numbers *)

Lemma is_Ok_true {A} (r : result A) : is_Ok r = true -> exists a, r = Ok a.
Proof. destruct r as [a|e]; [eauto | discriminate]. Qed.

Lemma float_of_int_100 : float_of_int 100 = Ok 100%float.
Proof. reflexivity. Qed.

Lemma gtb_int (x y : Z) : Py.gtb (PInt x) (PInt y) = (y <? x).
Proof. reflexivity. Qed.

(** Every quotient of two amounts of at most 100 cents is representable:
    checked on the whole range. *)
Lemma small_quotients_checked :
  forallb (fun b => forallb (fun n => is_Ok (int_truediv n b)) (seqZ 0 101))
          (seqZ 1 100) = true.
Proof. vm_compute. reflexivity. Qed.

Lemma forallb_seqZ (P : Z -> bool) (m n x : Z) :
  forallb P (seqZ m n) = true -> m <= x < m + n -> P x = true.
Proof.
  intros H Hx. rewrite forallb_forall in H. apply H.
  apply list_elem_of_In, elem_of_seqZ. exact Hx.
Qed.

Lemma int_truediv_cents (n b : Z) :
  0 <= n <= 100 -> 1 <= b <= 100 -> exists q, int_truediv n b = Ok q.
Proof.
  intros Hn Hb. apply is_Ok_true.
  apply (forallb_seqZ (fun n => is_Ok (int_truediv n b)) 0 101 n); [|lia].
  apply (forallb_seqZ
           (fun b => forallb (fun n => is_Ok (int_truediv n b)) (seqZ 0 101))
           1 100 b); [|lia].
  exact small_quotients_checked.
Qed.

(** ** Spread evaluation *)

Lemma profit_pct_of_pos (net bid : Z) :
  0 < bid ->
  profit_pct_of net bid
  = (q ← int_truediv net bid; Ok (PFloat (q * 100)%float)).
Proof.
  intros Hb. unfold profit_pct_of.
  destruct (0 <? bid) eqn:E; [| apply Z.ltb_ge in E; lia].
  destruct (int_truediv net bid) as [q|e]; reflexivity.
Qed.

(** Without a bound on the quotes: a yes side that meets the threshold is
    the one returned, whatever the no side is; the call raises only when
    the percentage itself overflows. *)
Lemma calculate_spread_yes_first (m : Market) :
  yes_bid m <> 0 -> yes_ask m <> 0 ->
  min_viable_spread <= yes_ask m - yes_bid m ->
  calculate_spread m
  = (p ← profit_pct_of (yes_ask m - yes_bid m - 2 * KALSHI_FEE_PER_CONTRACT)
                       (yes_bid m);
     Ok (Some (mk_opportunity "yes" (yes_bid m) (yes_ask m)
                 (yes_ask m - yes_bid m) (2 * KALSHI_FEE_PER_CONTRACT)
                 (yes_ask m - yes_bid m - 2 * KALSHI_FEE_PER_CONTRACT) p))).
Proof.
  intros Hb Ha Hs. unfold calculate_spread, min_viable_spread in *.
  apply Z.eqb_neq in Hb, Ha. rewrite Hb, Ha. cbn [negb andb].
  replace (KALSHI_FEE_PER_CONTRACT * 2) with (2 * KALSHI_FEE_PER_CONTRACT)
    by reflexivity.
  destruct (_ <=? _) eqn:E; [reflexivity | apply Z.leb_gt in E; lia].
Qed.

(** On quotes of the data model the percentage never overflows, so the
    yes-side opportunity is returned in full. *)
Lemma calculate_spread_yes_in_range (m : Market) :
  quote_in_range (yes_bid m) -> quote_in_range (yes_ask m) ->
  yes_bid m <> 0 -> yes_ask m <> 0 ->
  2 * KALSHI_FEE_PER_CONTRACT + MIN_PROFIT_CENTS <= yes_ask m - yes_bid m ->
  let spread := yes_ask m - yes_bid m in
  let fees := 2 * KALSHI_FEE_PER_CONTRACT in
  exists q : float,
    int_truediv (spread - fees) (yes_bid m) = Ok q /\
    calculate_spread m
    = Ok (Some (mk_opportunity "yes" (yes_bid m) (yes_ask m) spread fees
                               (spread - fees) (PFloat (q * 100)%float))).
Proof.
  intros [Hb0 Hb1] [Ha0 Ha1] Hb Ha Hs spread fees.
  assert (Hpos : 0 < yes_bid m) by lia.
  destruct (int_truediv_cents (spread - fees) (yes_bid m)) as [q Hq].
  { subst spread fees. unfold KALSHI_FEE_PER_CONTRACT, MIN_PROFIT_CENTS in *.
    lia. }
  { lia. }
  exists q. split; [exact Hq |].
  rewrite calculate_spread_yes_first by assumption.
  rewrite profit_pct_of_pos by assumption.
  fold spread fees. rewrite Hq. reflexivity.
Qed.

(** The no side is reached only after the yes side has failed its test. *)
Lemma calculate_spread_no_second (m : Market) :
  (yes_bid m = 0 \/ yes_ask m = 0 \/ yes_ask m - yes_bid m < min_viable_spread) ->
  no_bid m <> 0 -> no_ask m <> 0 ->
  min_viable_spread <= no_ask m - no_bid m ->
  calculate_spread m
  = (p ← profit_pct_of (no_ask m - no_bid m - 2 * KALSHI_FEE_PER_CONTRACT)
                       (no_bid m);
     Ok (Some (mk_opportunity "no" (no_bid m) (no_ask m)
                 (no_ask m - no_bid m) (2 * KALSHI_FEE_PER_CONTRACT)
                 (no_ask m - no_bid m - 2 * KALSHI_FEE_PER_CONTRACT) p))).
Proof.
  intros Hy Hb Ha Hs. unfold calculate_spread, min_viable_spread in *.
  apply Z.eqb_neq in Hb, Ha. rewrite Hb, Ha. cbn [negb andb].
  replace (KALSHI_FEE_PER_CONTRACT * 2) with (2 * KALSHI_FEE_PER_CONTRACT)
    by reflexivity.
  assert (Hn : (2 * KALSHI_FEE_PER_CONTRACT + MIN_PROFIT_CENTS
                <=? no_ask m - no_bid m) = true) by (apply Z.leb_le; lia).
  rewrite Hn.
  destruct (yes_bid m =? 0) eqn:E1; [reflexivity |].
  destruct (yes_ask m =? 0) eqn:E2; [reflexivity |].
  cbn [negb andb].
  apply Z.eqb_neq in E1, E2.
  destruct (_ <=? yes_ask m - yes_bid m) eqn:E3; [|reflexivity].
  apply Z.leb_le in E3. lia.
Qed.

Lemma calculate_spread_no_in_range (m : Market) :
  (yes_bid m = 0 \/ yes_ask m = 0
   \/ yes_ask m - yes_bid m < 2 * KALSHI_FEE_PER_CONTRACT + MIN_PROFIT_CENTS) ->
  quote_in_range (no_bid m) -> quote_in_range (no_ask m) ->
  no_bid m <> 0 -> no_ask m <> 0 ->
  2 * KALSHI_FEE_PER_CONTRACT + MIN_PROFIT_CENTS <= no_ask m - no_bid m ->
  let spread := no_ask m - no_bid m in
  let fees := 2 * KALSHI_FEE_PER_CONTRACT in
  exists q : float,
    int_truediv (spread - fees) (no_bid m) = Ok q /\
    calculate_spread m
    = Ok (Some (mk_opportunity "no" (no_bid m) (no_ask m) spread fees
                               (spread - fees) (PFloat (q * 100)%float))).
Proof.
  intros Hy [Hb0 Hb1] [Ha0 Ha1] Hb Ha Hs spread fees.
  assert (Hpos : 0 < no_bid m) by lia.
  destruct (int_truediv_cents (spread - fees) (no_bid m)) as [q Hq].
  { subst spread fees. unfold KALSHI_FEE_PER_CONTRACT, MIN_PROFIT_CENTS in *.
    lia. }
  { lia. }
  exists q. split; [exact Hq |].
  rewrite calculate_spread_no_second by assumption.
  rewrite profit_pct_of_pos by assumption.
  fold spread fees. rewrite Hq. reflexivity.
Qed.

(** C4. For every market whose yes bid and yes ask are both quoted (nonzero
    cents in range) with [yes_ask - yes_bid >= 2 * fee + min_profit],
    [calculate_spread] returns the yes-side opportunity: it buys at the yes
    bid, sells at the yes ask, fees are [2 * fee], the net profit is the
    spread minus the fees exactly, and the percentage is the float
    [net_profit / yes_bid * 100]. The yes side is tried first, whatever the
    no side offers; the no side is returned, with the same fields, when the
    yes side is unquoted or too narrow and the no side meets the
    threshold. *)
Theorem calculate_spread_yes_side (m : Market) :
  (quote_in_range (yes_bid m) -> quote_in_range (yes_ask m) ->
   yes_bid m <> 0 -> yes_ask m <> 0 ->
   2 * KALSHI_FEE_PER_CONTRACT + MIN_PROFIT_CENTS <= yes_ask m - yes_bid m ->
   let spread := yes_ask m - yes_bid m in
   let fees := 2 * KALSHI_FEE_PER_CONTRACT in
   exists q : float,
     int_truediv (spread - fees) (yes_bid m) = Ok q /\
     calculate_spread m
     = Ok (Some (mk_opportunity "yes" (yes_bid m) (yes_ask m) spread fees
                                (spread - fees) (PFloat (q * 100)%float)))) /\
  ((yes_bid m = 0 \/ yes_ask m = 0
    \/ yes_ask m - yes_bid m < 2 * KALSHI_FEE_PER_CONTRACT + MIN_PROFIT_CENTS) ->
   quote_in_range (no_bid m) -> quote_in_range (no_ask m) ->
   no_bid m <> 0 -> no_ask m <> 0 ->
   2 * KALSHI_FEE_PER_CONTRACT + MIN_PROFIT_CENTS <= no_ask m - no_bid m ->
   let spread := no_ask m - no_bid m in
   let fees := 2 * KALSHI_FEE_PER_CONTRACT in
   exists q : float,
     int_truediv (spread - fees) (no_bid m) = Ok q /\
     calculate_spread m
     = Ok (Some (mk_opportunity "no" (no_bid m) (no_ask m) spread fees
                                (spread - fees) (PFloat (q * 100)%float)))).
Proof.
  split.
  - apply calculate_spread_yes_in_range.
  - apply calculate_spread_no_in_range.
Qed.

Lemma calculate_spread_yes_side_witness :
  exists q : float,
    int_truediv (45 - 40 - 4) 40 = Ok q /\
    calculate_spread scenario1
    = Ok (Some (mk_opportunity "yes" 40 45 5 4 1 (PFloat (q * 100)%float))).
Proof.
  apply (proj1 (calculate_spread_yes_side scenario1)); by_evaluation.
Defined.

(** Scenario 2 of the specification: both sides too narrow. *)
Example calculate_spread_scenario2 :
  calculate_spread (mk_market "M2" "Scenario 2" 2000 40 43 30 33 "") = Ok None.
Proof. reflexivity. Qed.

(** ** Circuit breaker *)

Section Breaker.
Import CircuitBreaker.

Lemma reset_same_day (cb : t) :
  reset_if_new_day (last_reset_date cb) cb = (cb, false).
Proof. unfold reset_if_new_day. rewrite Z.eqb_refl. reflexivity. Qed.






End Breaker.



(** Scenario 4 of the specification: an 11% drawdown is rejected as such. *)
Example drawdown_scenario4 :
  snd (CircuitBreaker.check_trade_allowed 1 0%float 8900 100
         (CircuitBreaker.set_peak_balance 10000 (CircuitBreaker.init 1)))
  = Ok (false, CircuitBreaker.MaxDrawdownExceeded 0.11%float).
Proof. vm_compute. reflexivity. Qed.

(** ** Inventory *)

Section Inventory.
Import InventoryManager.





(** On an inventory with whole-cent average prices the estimate is the
    integer [|(held + quantity) * price - other_side_value|]. *)
Lemma projected_exposure_int (inv : t) quantity price_cents ay an :
  avg_yes_price inv = PInt ay -> avg_no_price inv = PInt an ->
  projected_exposure inv "yes" quantity price_cents
  = Ok (PInt (Z.abs ((yes_contracts inv + quantity) * price_cents
                     - no_contracts inv * an))) /\
  projected_exposure inv "no" quantity price_cents
  = Ok (PInt (Z.abs (yes_contracts inv * ay
                     - (no_contracts inv + quantity) * price_cents))).
Proof.
  intros Hy Hn. unfold projected_exposure, new_values. cbn.
  rewrite Hy, Hn. split; reflexivity.
Qed.


Example can_add_position_boundary :
  can_add_position (init 5000) "yes" 100 50 = Ok (true, OK) /\
  can_add_position (init 5000) "yes" 101 50
  = Ok (false, WouldExceedMaxExposure (PInt 5050)).
Proof. split; vm_compute; reflexivity. Qed.

(** C7. [can_add_position] values the traded side at
    [(held + quantity) * price], the held contracts included at the
    candidate price, while [add_position] keeps their cost in the weighted
    average. So a trade can pass the check and leave [get_exposure] with a
    net exposure strictly above [max_exposure]: with 100 yes contracts held
    at 50, buying 100 more at 1 is estimated at 200 and books 5100. *)
Theorem can_add_position_reprices_held_contracts :
  (forall inv quantity price_cents y n,
      new_values inv "yes" quantity price_cents = Ok (y, n) ->
      y = PInt ((yes_contracts inv + quantity) * price_cents)) /\
  (forall inv quantity price_cents y n,
      new_values inv "no" quantity price_cents = Ok (y, n) ->
      n = PInt ((no_contracts inv + quantity) * price_cents)) /\
  exists inv side quantity price_cents inv' ex,
    yes_contracts inv <> 0 /\
    can_add_position inv side quantity price_cents = Ok (true, OK) /\
    add_position inv side quantity price_cents = (inv', Ok tt) /\
    get_exposure inv' = Ok ex /\
    Py.gtb (net_exposure ex) (PInt (max_exposure inv')) = true.
Proof.
  split; [| split].
  - intros inv q p y n. unfold new_values.
    change (String.eqb "yes" "yes") with true. unfold mbind, result_bind.
    destruct (Py.mul (PInt (no_contracts inv)) (avg_no_price inv));
      congruence.
  - intros inv q p y n. unfold new_values.
    change (String.eqb "no" "yes") with false. unfold mbind, result_bind.
    destruct (Py.mul (PInt (yes_contracts inv)) (avg_yes_price inv));
      congruence.
  - exists held_inventory, "yes", 100, 1.
    eexists. eexists.
    split; [vm_compute; discriminate |].
    split; [vm_compute; reflexivity |].
    split; [vm_compute; reflexivity |].
    split; vm_compute; reflexivity.
Qed.

Example held_inventory_books_5100 :
  projected_exposure held_inventory "yes" 100 1 = Ok (PInt 200) /\
  (ex ← get_exposure (fst (add_position held_inventory "yes" 100 1));
   Ok (net_exposure ex)) = Ok (PFloat 5100%float).
Proof. split; vm_compute; reflexivity. Qed.

End Inventory.

(** ** Position sizing *)

Lemma clamp_position_bounds (n : Z) :
  MIN_POSITION_CONTRACTS <= clamp_position n <= MAX_POSITION_CONTRACTS.
Proof.
  unfold clamp_position, MIN_POSITION_CONTRACTS, MAX_POSITION_CONTRACTS. lia.
Qed.

(** Whenever a size is returned, it is within the configured bounds. *)
Lemma determine_position_size_bounds (use_kelly : bool) balance opp n :
  determine_position_size use_kelly balance opp = Ok n ->
  MIN_POSITION_CONTRACTS <= n <= MAX_POSITION_CONTRACTS.
Proof.
  unfold determine_position_size, calculate_position_size_kelly,
    calculate_position_size_fixed_pct, mbind, result_bind.
  intros H.
  repeat match type of H with
         | Raise _ = Ok _ => discriminate H
         | Ok _ = Ok _ => injection H as <-
         | context [match ?r with Ok _ => _ | Raise _ => _ end] =>
             destruct r; cbn beta iota in H
         | context [if ?b then _ else _] => destruct b; cbn beta iota in H
         end;
    first [ apply clamp_position_bounds
          | unfold MIN_POSITION_CONTRACTS, MAX_POSITION_CONTRACTS; lia ].
Qed.

(** The guard of the Kelly rule: a non-positive average loss gives the
    minimum size. *)
Lemma kelly_guard balance win_prob avg_win avg_loss :
  avg_loss <= 0 ->
  calculate_position_size_kelly balance win_prob avg_win avg_loss
  = Ok MIN_POSITION_CONTRACTS.
Proof.
  intros H. unfold calculate_position_size_kelly.
  destruct (avg_loss <=? 0) eqn:E; [reflexivity | apply Z.leb_gt in E; lia].
Qed.

(** C8. Position sizing is not total. Under the Kelly strategy an
    opportunity with zero net profit makes the odds [0.0] and the Kelly
    fraction divides by them; an opportunity with zero buy price is divided
    by in [determine_position_size] before the guard of
    [calculate_position_size_kelly] is reached. Both raise
    [ZeroDivisionError] instead of returning a size. *)
Theorem position_sizing_divides_by_zero :
  determine_position_size true 50000 zero_profit_opportunity
  = Raise ZeroDivisionError /\
  determine_position_size true 50000 zero_price_opportunity
  = Raise ZeroDivisionError /\
  calculate_position_size_kelly 50000 (PFloat 0.5%float) 0 40
  = Raise ZeroDivisionError /\
  calculate_position_size_kelly 50000 (PFloat 0.5%float) 3 0
  = Ok MIN_POSITION_CONTRACTS.
Proof. repeat split; vm_compute; reflexivity. Qed.

(** The pathological inputs that do return: a zero balance under either
    strategy. *)
Example position_size_zero_balance :
  determine_position_size true 0 (mk_opportunity "yes" 40 47 7 4 3 (PFloat 7.5%float))
  = Ok 1 /\
  determine_position_size false 0 zero_price_opportunity = Ok 1.
Proof. split; vm_compute; reflexivity. Qed.

(** Scenario 3 of the specification, and a size that reaches the cap. *)
Example position_size_scenario3 :
  determine_position_size true 50000
    (mk_opportunity "yes" 40 47 7 4 3 (PFloat 7.5%float)) = Ok 1 /\
  determine_position_size false 5000000 zero_price_opportunity = Ok 100.
Proof. split; vm_compute; reflexivity. Qed.

(** ** Exchange client *)

Section Client.
Import KalshiClient.

Lemma sent_count_app (tr1 tr2 : list event) :
  sent_count (tr1 ++ tr2) = (sent_count tr1 + sent_count tr2)%nat.
Proof. unfold sent_count. rewrite List.filter_app, List.length_app. reflexivity. Qed.

Lemma sent_count_sent tr r : sent_count (tr ++ [Sent r]) = S (sent_count tr).
Proof.
  rewrite sent_count_app. change (sent_count [Sent r]) with 1%nat. lia.
Qed.

Lemma sent_count_slept tr s : sent_count (tr ++ [Slept s]) = sent_count tr.
Proof.
  rewrite sent_count_app. change (sent_count [Slept s]) with 0%nat. lia.
Qed.







(** A response with an HTTP error status is not retried. *)
Example request_http_error_not_retried :
  _request (fun _ _ => Raised (RequestsHTTPError 400 "bad request"))
           MAX_RETRIES "POST" "/orders" None []
  = (Raise (KalshiAPIError (ApiErrorDetail 400 "bad request")),
     [Sent (mk_request "POST" "/orders" None)]).
Proof. reflexivity. Qed.

End Client.

Section PlaceOrder.
Import KalshiClient.

(** A call with an iteration to run and a supported method starts by
    sending its request. *)
Lemma request_loop_extends srv m req remaining :
  forall attempt last_error tr,
    exists rest,
      snd (request_loop srv m req remaining attempt last_error tr)
      = tr ++ rest.
Proof.
  induction remaining as [|r IH]; intros attempt last_error tr;
    cbn [request_loop].
  - exists []. cbn [snd]. rewrite app_nil_r. reflexivity.
  - assert (B : forall t, exists rest, backoff m attempt t = t ++ rest).
    { intros t. unfold backoff. destruct (_ <? _); eauto.
      exists []. rewrite app_nil_r. reflexivity. }
    assert (K : forall e t, exists rest,
                snd (request_loop srv m req r (S attempt) e
                       (backoff m attempt (tr ++ t))) = tr ++ rest).
    { intros e t. destruct (B (tr ++ t)) as [r1 ->].
      destruct (IH (S attempt) e ((tr ++ t) ++ r1)) as [r2 ->].
      exists (t ++ r1 ++ r2). rewrite <- !app_assoc. reflexivity. }
    destruct (_ || _).
    + destruct (srv (sent_count tr) req) as [e| |d]; cbn [snd]; eauto.
      destruct e; cbn [snd]; eauto.
    + specialize (K (Some (ValueError ("Unsupported method: "
                                        +:+ KalshiClient.method req))) []).
      rewrite app_nil_r in K. exact K.
Qed.

Lemma request_loop_sends_first srv m req r attempt last_error tr :
  String.eqb (method req) "GET" || String.eqb (method req) "POST" = true ->
  exists rest,
    snd (request_loop srv m req (S r) attempt last_error tr)
    = tr ++ Sent req :: rest.
Proof.
  intros Hm. cbn [request_loop]. rewrite Hm.
  assert (K : forall e, exists rest,
              snd (request_loop srv m req r (S attempt) e
                     (backoff m attempt (tr ++ [Sent req])))
              = tr ++ Sent req :: rest).
  { intros e.
    destruct (request_loop_extends srv m req r (S attempt) e
                (backoff m attempt (tr ++ [Sent req]))) as [r2 ->].
    unfold backoff. destruct (_ <? _).
    - exists (Slept (2 ^ Z.of_nat attempt) :: r2).
      rewrite <- !app_assoc. reflexivity.
    - exists r2. rewrite <- !app_assoc. reflexivity. }
  destruct (srv (sent_count tr) req) as [e| |d]; cbn [snd];
    try (exists []; reflexivity).
  destruct e; cbn [snd]; try (exists []; reflexivity); apply K.
Qed.

Lemma request_post_sends srv endpoint data tr :
  exists rest,
    snd (_request srv MAX_RETRIES "POST" endpoint data tr)
    = tr ++ Sent (mk_request "POST" endpoint data) :: rest.
Proof.
  unfold _request, MAX_RETRIES. apply request_loop_sends_first. reflexivity.
Qed.

Lemma elem_of_pair (x a b : string) : x ∈ [a; b] <-> x = a \/ x = b.
Proof. rewrite !elem_of_cons, elem_of_nil. tauto. Qed.

(** C10. [place_order] checks its arguments before anything is sent: the
    side is yes or no, the price is between 1 and 99, the count is
    positive, the type is limit or market. If one of them fails, it raises
    [ValueError] and the trace of requests is unchanged; if all hold, it is
    the POST of the order to [/orders], and that request is sent. *)
Theorem place_order_validates_first (srv : server)
    (market_id side : string) (price count : Z) (order_type : string)
    (tr : list event) :
  (~ valid_order side price count order_type ->
   exists msg,
     place_order srv MAX_RETRIES market_id side price count order_type tr
     = (Raise (ValueError msg), tr)) /\
  (valid_order side price count order_type ->
   let body := order_body market_id side price count order_type in
   place_order srv MAX_RETRIES market_id side price count order_type tr
   = _request srv MAX_RETRIES "POST" "/orders" (Some body) tr /\
   exists rest,
     snd (place_order srv MAX_RETRIES market_id side price count order_type tr)
     = tr ++ Sent (mk_request "POST" "/orders" (Some body)) :: rest).
Proof.
  unfold valid_order, place_order.
  destruct (bool_decide (side ∈ ["yes"; "no"])) eqn:Es; cbn [negb].
  2: { apply bool_decide_eq_false in Es. split.
       - intros _. eauto.
       - intros (H & _). exfalso. apply Es, elem_of_pair, H. }
  apply bool_decide_eq_true in Es.
  assert (Hs : side = "yes" \/ side = "no") by (apply elem_of_pair, Es).
  destruct ((1 <=? price) && (price <=? 99)) eqn:Ep; cbn [negb].
  2: { split; [intros _; eauto |]. intros (_ & Hp & _).
       apply andb_false_iff in Ep. destruct Ep as [E | E];
         [apply Z.leb_gt in E | apply Z.leb_gt in E]; lia. }
  apply andb_true_iff in Ep. destruct Ep as [Ep1 Ep2].
  apply Z.leb_le in Ep1, Ep2.
  destruct (count <=? 0) eqn:Ec.
  { apply Z.leb_le in Ec. split; [intros _; eauto |].
    intros (_ & _ & Hc & _). lia. }
  apply Z.leb_gt in Ec.
  destruct (bool_decide (order_type ∈ ["limit"; "market"])) eqn:Et; cbn [negb].
  2: { apply bool_decide_eq_false in Et. split; [intros _; eauto |].
       intros (_ & _ & _ & H). exfalso. apply Et, elem_of_pair, H. }
  apply bool_decide_eq_true in Et.
  assert (Ht : order_type = "limit" \/ order_type = "market")
    by (apply elem_of_pair, Et).
  split.
  - intros H. exfalso. apply H. repeat split; assumption.
  - intros _. split; [reflexivity |]. apply request_post_sends.
Qed.

Lemma place_order_validates_first_witness :
  (exists msg,
     place_order always_times_out MAX_RETRIES "M1" "yes" 100 10 "limit" []
     = (Raise (ValueError msg), [])) /\
  (exists rest,
     snd (place_order always_times_out MAX_RETRIES "M1" "yes" 41 10 "limit" [])
     = [] ++ Sent (mk_request "POST" "/orders"
                     (Some (order_body "M1" "yes" 41 10 "limit"))) :: rest).
Proof.
  split.
  - apply (proj1 (place_order_validates_first always_times_out
                    "M1" "yes" 100 10 "limit" [])).
    unfold valid_order. lia.
  - apply (proj2 (place_order_validates_first always_times_out
                    "M1" "yes" 41 10 "limit" [])).
    unfold valid_order. repeat split; first [lia | left; reflexivity].
Defined.

(** The checks are made in order and none of them sends anything. *)
Example place_order_rejections :
  fst (place_order always_times_out MAX_RETRIES "M1" "maybe" 41 10 "limit" [])
  = Raise (ValueError "Invalid side: maybe. Must be 'yes' or 'no'") /\
  place_order always_times_out MAX_RETRIES "M1" "no" 0 10 "limit" []
  = (Raise (ValueError "Invalid price: 0. Must be between 1 and 99 cents"), []) /\
  place_order always_times_out MAX_RETRIES "M1" "no" 99 (-2) "limit" []
  = (Raise (ValueError "Invalid count: -2. Must be positive"), []) /\
  place_order always_times_out MAX_RETRIES "M1" "no" 99 1 "stop" []
  = (Raise (ValueError "Invalid order_type: stop. Must be 'limit' or 'market'"),
     []).
Proof. repeat split; vm_compute; reflexivity. Qed.

End PlaceOrder.

(** ** Order placement ([trading_bot_CORRECTED.py]) *)

Section Coordinator.

(** Case analysis on every outcome a run of [place_market_making_orders]
    branches on. *)
Ltac run_cases H :=
  repeat match type of H with
         | context [match ?x with _ => _ end] =>
             destruct x eqn:?; try discriminate H
         end.

(** What a successful run has done: the expected profit is the net profit
    times the size, the order is recorded with the breaker, and the
    inventory is the one the run started with. *)
Lemma success_bookkeeping cl clock market bot r bot' :
  place_market_making_orders cl clock market bot = (Ok (Some r), bot') ->
  exists opp cb,
    calculate_spread market = Ok (Some opp) /\
    r_expected_profit r = net_profit opp * r_position_size r /\
    circuit_breaker bot'
    = CircuitBreaker.record_order (record_time clock) cb /\
    inventory_manager bot' = inventory_manager bot /\
    exists buy hedge,
      calls bot' = calls bot ++ [GetBalance; PlaceOrder buy; PlaceOrder hedge].
Proof.
  unfold place_market_making_orders. intros H. run_cases H.
  all: injection H as <- <-; eexists; eexists.
  all: split; [reflexivity |]; split; [reflexivity |].
  all: split; [reflexivity |]; split; [reflexivity |].
  all: eexists; eexists; cbn; rewrite <- !app_assoc; reflexivity.
Qed.

(** C1. Where the code departs from the claim: on a run in which both
    orders are accepted (yes 40/90, 58 contracts) the result carries the
    expected profit [46 * 58] and the breaker has the order's timestamp, but
    the inventory is still the empty one; [add_position], which would have
    booked the 58 contracts, is not called. *)
Theorem full_success_skips_add_position :
  let run := place_market_making_orders filling_client noon wide_market
               fresh_bot in
  (exists r, fst run = Ok (Some r) /\
             r_position_size r = 58 /\
             r_expected_profit r = 46 * 58) /\
  CircuitBreaker.order_timestamps (circuit_breaker (snd run)) = [1001%float] /\
  inventory_manager (snd run) = inventory_manager fresh_bot /\
  InventoryManager.yes_contracts (inventory_manager (snd run)) = 0 /\
  InventoryManager.yes_contracts
    (fst (InventoryManager.add_position (inventory_manager fresh_bot)
            "yes" 58 40)) = 58.
Proof.
  split; [eexists; split; [vm_compute; reflexivity | split; reflexivity] |].
  repeat split; vm_compute; reflexivity.
Qed.



End Coordinator.

(** ** Order placement ([trading_bot.py]) *)

Section Original.
Import TradingBotOriginal.


End Original.

(** ** The order pair *)

Section OrderPair.



(** In [trading_bot.py] an answer to the primary order that has no
    identifier ends the run before any hedge is placed. *)
Lemma primary_without_id_aborts_original cl market calls
    (opp : TradingBotOriginal.Opportunity) buy_order :
  TradingBotOriginal.calculate_spread market = Ok (Some opp) ->
  place_order cl (length calls)
    (mk_order (id market) (TradingBotOriginal.type opp)
       (TradingBotOriginal.buy_price opp + 1) 10 "limit")
  = Ok buy_order ->
  truthy (dict_get buy_order "order_id") = false ->
  TradingBotOriginal.place_market_making_orders cl market calls
  = (Ok None,
     calls ++ [PlaceOrder (mk_order (id market) (TradingBotOriginal.type opp)
                             (TradingBotOriginal.buy_price opp + 1) 10
                             "limit")]).
Proof.
  intros H1 H2 Hid. unfold TradingBotOriginal.place_market_making_orders.
  rewrite H1, H2, Hid. cbn [negb].
  destruct (dict_is_empty buy_order); reflexivity.
Qed.

(** C3. Where the code departs from the claim: the primary order goes out
    at the bid plus one (41 for a bid of 40), but when its answer carries no
    order identifier [trading_bot_CORRECTED.py] places the hedge all the
    same and reports a trade, while [trading_bot.py] stops after the primary
    order and reports none. *)
Theorem missing_order_id_not_checked :
  let run := place_market_making_orders unidentified_client noon wide_market
               fresh_bot in
  (exists r, fst run = Ok (Some r)) /\
  orders_since 0 (calls (snd run))
  = [PlaceOrder (mk_order "M3" "yes" 41 58 "limit");
     PlaceOrder (mk_order "M3" "no" 10 58 "limit")] /\
  TradingBotOriginal.place_market_making_orders unidentified_client
    wide_market []
  = (Ok None, [PlaceOrder (mk_order "M3" "yes" 41 10 "limit")]).
Proof.
  split; [eexists; vm_compute; reflexivity |].
  split; vm_compute; reflexivity.
Qed.

End OrderPair.

Section PrimaryPrice.

Ltac run_cases_in H :=
  repeat match type of H with
         | context [match ?x with _ => _ end] => destruct x eqn:?
         end.

(** Whenever a run places an order at all, the first one is the primary
    order: on the opportunity's side, at its bid plus one cent. *)
Lemma primary_order_price cl clock market bot o rest :
  orders_since (length (calls bot))
    (calls (snd (place_market_making_orders cl clock market bot)))
  = PlaceOrder o :: rest ->
  exists opp,
    calculate_spread market = Ok (Some opp) /\
    o_side o = type opp /\ o_price o = buy_price opp + 1.
Proof.
  unfold orders_since, place_market_making_orders. intros H.
  run_cases_in H.
  all: cbn [snd cancel_all] in H; unfold log_call, set_circuit_breaker in H;
    cbn [calls circuit_breaker inventory_manager] in H;
    rewrite <- ?app_assoc in H;
    first [ rewrite drop_app_length in H | rewrite drop_all in H ];
    cbn in H; try discriminate H.
  all: injection H as <- _; eexists; split; [reflexivity |];
    split; reflexivity.
Qed.

Lemma primary_order_price_original cl market calls o rest :
  orders_since (length calls)
    (snd (TradingBotOriginal.place_market_making_orders cl market calls))
  = PlaceOrder o :: rest ->
  exists opp,
    TradingBotOriginal.calculate_spread market = Ok (Some opp) /\
    o_side o = TradingBotOriginal.type opp /\
    o_price o = TradingBotOriginal.buy_price opp + 1.
Proof.
  unfold orders_since, TradingBotOriginal.place_market_making_orders.
  intros H. run_cases_in H.
  all: cbn [snd TradingBotOriginal.cancel_all] in H;
    unfold TradingBotOriginal.cancel_quietly in H; run_cases_in H;
    rewrite <- ?app_assoc in H;
    first [ rewrite drop_app_length in H | rewrite drop_all in H ];
    cbn in H; try discriminate H.
  all: injection H as <- _; eexists; split; [reflexivity |];
    split; reflexivity.
Qed.

End PrimaryPrice.

(** * Further properties *)

(** ** The request loop *)

Section RequestLoop.
Import KalshiClient.

Lemma request_loop_only_api_error srv m req remaining :
  forall attempt last_error tr,
    only_api_error (fst (request_loop srv m req remaining attempt last_error tr)).
Proof.
  induction remaining as [|r IH]; intros attempt last_error tr;
    cbn [request_loop]; [exact I |].
  destruct (_ || _); [| apply IH].
  destruct (srv (sent_count tr) req) as [e| |d]; try exact I.
  destruct e; first [exact I | apply IH].
Qed.

Lemma request_only_api_error (srv : server) (max_retries : nat)
    (method endpoint : string) (data : option (gmap string json))
    (tr : list event) :
  only_api_error (fst (_request srv max_retries method endpoint data tr)).
Proof. apply request_loop_only_api_error. Qed.


Lemma sleeps_app (tr1 tr2 : list event) :
  sleeps (tr1 ++ tr2) = sleeps tr1 ++ sleeps tr2.
Proof. unfold sleeps. apply omap_app. Qed.

Lemma sleeps_backoff m attempt tr :
  sleeps (backoff m attempt tr)
  = sleeps tr ++ (if (S attempt <? m)%nat then [2 ^ Z.of_nat attempt] else []).
Proof.
  unfold backoff.
  destruct (Z.of_nat attempt <? Z.of_nat m - 1) eqn:E.
  - apply Z.ltb_lt in E.
    assert (H : (S attempt <? m)%nat = true) by (apply Nat.ltb_lt; lia).
    rewrite H, sleeps_app. reflexivity.
  - apply Z.ltb_ge in E.
    assert (H : (S attempt <? m)%nat = false) by (apply Nat.ltb_ge; lia).
    rewrite H, app_nil_r. reflexivity.
Qed.

Lemma request_loop_schedule srv m req remaining :
  forall attempt last_error tr,
    exists k,
      (k = 0 \/ attempt + k < m)%nat /\
      sleeps (snd (request_loop srv m req remaining attempt last_error tr))
      = sleeps tr ++ backoff_schedule attempt k.
Proof.
  induction remaining as [|r IH]; intros attempt last_error tr;
    cbn [request_loop].
  - exists 0%nat. split; [left; reflexivity |]. cbn [snd].
    unfold backoff_schedule. cbn. rewrite app_nil_r. reflexivity.
  - assert (Stop : forall x : result (gmap string json),
               exists k, (k = 0 \/ attempt + k < m)%nat /\
                         sleeps (snd (x, tr ++ [Sent req]))
                         = sleeps tr ++ backoff_schedule attempt k).
    { intros x. exists 0%nat. split; [left; reflexivity |]. cbn [snd].
      rewrite sleeps_app. unfold backoff_schedule. cbn.
      rewrite app_nil_r. reflexivity. }
    assert (Go : forall e t, sleeps t = sleeps tr ->
               exists k, (k = 0 \/ attempt + k < m)%nat /\
                 sleeps (snd (request_loop srv m req r (S attempt) e
                                (backoff m attempt t)))
                 = sleeps tr ++ backoff_schedule attempt k).
    { intros e t Ht.
      destruct (IH (S attempt) e (backoff m attempt t)) as (k & Hk & ->).
      rewrite sleeps_backoff, Ht.
      destruct (S attempt <? m)%nat eqn:E.
      - apply Nat.ltb_lt in E. exists (S k). split; [right; lia |].
        rewrite <- app_assoc. reflexivity.
      - apply Nat.ltb_ge in E. exists 0%nat. split; [left; reflexivity |].
        assert (k = 0)%nat as -> by lia. rewrite app_nil_r. reflexivity. }
    assert (Sent1 : sleeps (tr ++ [Sent req]) = sleeps tr).
    { rewrite sleeps_app. cbn. apply app_nil_r. }
    destruct (_ || _); [| apply Go; reflexivity].
    destruct (srv (sent_count tr) req) as [e| |d]; try apply Stop.
    destruct e; first [apply Stop | apply Go; exact Sent1].
Qed.

(** The delays of one call are [1, 2, 4, ...] in this order and there are
    fewer of them than [max_retries]: no delay follows the last attempt.
    With three attempts a call sleeps nothing, [1] or [1, 2]. *)
Theorem request_backoff_schedule (srv : server) (max_retries : nat)
    (method endpoint : string) (data : option (gmap string json))
    (tr : list event) :
  exists k,
    (k <= max_retries - 1)%nat /\
    sleeps (snd (_request srv max_retries method endpoint data tr))
    = sleeps tr ++ backoff_schedule 0 k.
Proof.
  destruct (request_loop_schedule srv max_retries
              (mk_request method endpoint data) max_retries 0 None tr)
    as (k & Hk & E).
  exists k. split; [lia | exact E].
Qed.

Lemma request_loop_retry srv m req r attempt last_error tr e :
  String.eqb (method req) "GET" || String.eqb (method req) "POST" = true ->
  is_retried e ->
  srv (sent_count tr) req = Raised e ->
  request_loop srv m req (S r) attempt last_error tr
  = request_loop srv m req r (S attempt) (Some e)
      (backoff m attempt (tr ++ [Sent req])).
Proof.
  intros Hm Hn Hs. cbn [request_loop]. rewrite Hm, Hs.
  destruct e; cbn in Hn; try contradiction; reflexivity.
Qed.

Lemma request_loop_final srv m req r attempt last_error tr o x :
  String.eqb (method req) "GET" || String.eqb (method req) "POST" = true ->
  srv (sent_count tr) req = o ->
  final_answer o = Some x ->
  request_loop srv m req (S r) attempt last_error tr = (x, tr ++ [Sent req]).
Proof.
  intros Hm Hs Hf. cbn [request_loop]. rewrite Hm, Hs.
  destruct o as [e| |d]; cbn in Hf.
  - destruct e; try discriminate Hf; injection Hf as <-; reflexivity.
  - injection Hf as <-. reflexivity.
  - injection Hf as <-. reflexivity.
Qed.

Lemma request_loop_after_failures srv m req k :
  String.eqb (method req) "GET" || String.eqb (method req) "POST" = true ->
  forall remaining attempt last_error tr o x,
    (attempt + remaining = m)%nat ->
    (k < remaining)%nat ->
    (forall i, (i < k)%nat ->
               exists e, srv (sent_count tr + i)%nat req = Raised e
                         /\ is_retried e) ->
    srv (sent_count tr + k)%nat req = o ->
    final_answer o = Some x ->
    request_loop srv m req remaining attempt last_error tr
    = (x, tr ++ retry_trace req attempt k ++ [Sent req]).
Proof.
  intros Hm. induction k as [|k IH];
    intros remaining attempt last_error tr o x Hsum Hlt Hfail Ho Hx.
  - destruct remaining as [|r]; [lia |].
    rewrite Nat.add_0_r in Ho.
    rewrite (request_loop_final _ _ _ _ _ _ _ o x Hm Ho Hx). reflexivity.
  - destruct remaining as [|r]; [lia |].
    destruct (Hfail 0%nat ltac:(lia)) as (e & He & Hr).
    rewrite Nat.add_0_r in He.
    rewrite (request_loop_retry _ _ _ _ _ _ _ e Hm Hr He).
    assert (B : backoff m attempt (tr ++ [Sent req])
                = (tr ++ [Sent req]) ++ [Slept (2 ^ Z.of_nat attempt)]).
    { unfold backoff.
      destruct (Z.of_nat attempt <? Z.of_nat m - 1) eqn:E; [reflexivity |].
      apply Z.ltb_ge in E. lia. }
    rewrite B.
    assert (C : sent_count ((tr ++ [Sent req])
                            ++ [Slept (2 ^ Z.of_nat attempt)])
                = S (sent_count tr)).
    { rewrite sent_count_slept, sent_count_sent. reflexivity. }
    rewrite (IH r (S attempt) (Some e) _ o x); try lia.
    + unfold retry_trace. cbn [seq flat_map].
      rewrite <- !app_assoc. reflexivity.
    + intros i Hi. rewrite C.
      destruct (Hfail (S i) ltac:(lia)) as (e' & He' & Hr').
      exists e'. split; [| exact Hr'].
      rewrite <- He'. f_equal. lia.
    + rewrite C. rewrite <- Ho. f_equal. lia.
    + exact Hx.
Qed.

(** After [k] retried failures, [k] below [max_retries], the answer of the
    next exchange decides the call: a body is returned (an empty one as the
    empty dictionary), an HTTP error status or an undecodable body is
    raised at once as [KalshiAPIError]; each failure before was followed by
    its delay, and nothing is sent or slept after the deciding exchange. *)
Theorem request_outcome_after_failures (srv : server) (max_retries : nat)
    (method endpoint : string) (data : option (gmap string json))
    (tr : list event) (k : nat) (o : http_outcome)
    (x : result (gmap string json)) :
  method = "GET" \/ method = "POST" ->
  (k < max_retries)%nat ->
  let req := mk_request method endpoint data in
  (forall i, (i < k)%nat ->
             exists e, srv (sent_count tr + i)%nat req = Raised e
                       /\ is_retried e) ->
  srv (sent_count tr + k)%nat req = o ->
  final_answer o = Some x ->
  _request srv max_retries method endpoint data tr
  = (x, tr ++ retry_trace req 0 k ++ [Sent req]).
Proof.
  intros Hm Hk req Hfail Ho Hx. unfold _request.
  assert (Hmb : String.eqb (KalshiClient.method req) "GET"
                || String.eqb (KalshiClient.method req) "POST" = true).
  { destruct Hm as [-> | ->]; reflexivity. }
  exact (request_loop_after_failures srv max_retries req k Hmb
           max_retries 0%nat None tr o x eq_refl Hk Hfail Ho Hx).
Qed.

Lemma request_outcome_after_failures_witness :
  _request (flaky_server (order_response "A7")) MAX_RETRIES "GET"
           "/markets/M1" None []
  = (Ok (order_response "A7"),
     [] ++ retry_trace (mk_request "GET" "/markets/M1" None) 0 2
        ++ [Sent (mk_request "GET" "/markets/M1" None)]).
Proof.
  apply (request_outcome_after_failures (flaky_server (order_response "A7"))
           MAX_RETRIES "GET" "/markets/M1" None [] 2
           (JsonBody (order_response "A7"))).
  - left. reflexivity.
  - unfold MAX_RETRIES. lia.
  - intros i Hi. exists (RequestsConnectionError "reset").
    split; [| exact I].
    destruct i as [|[|i]]; [reflexivity | reflexivity | lia].
  - reflexivity.
  - reflexivity.
Defined.

(** A method other than GET and POST is never sent: the [ValueError] of
    each attempt is retried like a network failure, so the call sleeps 1 s
    and 2 s and then raises [KalshiAPIError] with that [ValueError] as its
    cause, without a single request. *)
Theorem request_unsupported_method_sends_nothing (srv : server)
    (method endpoint : string) (data : option (gmap string json))
    (tr : list event) :
  method <> "GET" -> method <> "POST" ->
  _request srv MAX_RETRIES method endpoint data tr
  = (Raise (KalshiAPIError
              (RequestFailedAfter 3
                 (Some (ValueError ("Unsupported method: " +:+ method))))),
     tr ++ [Slept 1; Slept 2]).
Proof.
  intros Hg Hp.
  assert (Hm : String.eqb method "GET" || String.eqb method "POST" = false).
  { apply String.eqb_neq in Hg, Hp. rewrite Hg, Hp. reflexivity. }
  unfold _request, MAX_RETRIES. cbn [request_loop KalshiClient.method].
  rewrite Hm. unfold backoff.
  change (Z.of_nat 2 <? Z.of_nat 3 - 1) with false.
  change (Z.of_nat 1 <? Z.of_nat 3 - 1) with true.
  change (Z.of_nat 0 <? Z.of_nat 3 - 1) with true.
  cbn iota. rewrite <- app_assoc. reflexivity.
Qed.

Lemma request_unsupported_method_sends_nothing_witness :
  _request always_times_out MAX_RETRIES "DELETE" "/orders/A7" None []
  = (Raise (KalshiAPIError
              (RequestFailedAfter 3
                 (Some (ValueError ("Unsupported method: " +:+ "DELETE"))))),
     [] ++ [Slept 1; Slept 2]).
Proof.
  apply (request_unsupported_method_sends_nothing always_times_out
           "DELETE" "/orders/A7" None []); discriminate.
Defined.

End RequestLoop.

(** ** Read operations *)

Section Queries.
Import KalshiClient KalshiClientQueries.

(** [get_markets] answers with a dictionary whose ['markets'] entry is a
    list, whatever the exchange sent (an empty body, no such key, a value of
    another type all give the empty list), or raises [KalshiAPIError]. *)
Theorem get_markets_shape (srv : server) (max_retries : nat) (limit : Z)
    (status : string) (tr : list event) :
  match fst (get_markets srv max_retries limit status tr) with
  | Ok d => exists l, d !! "markets" = Some (JList l)
  | Raise e => exists f, e = KalshiAPIError f
  end.
Proof.
  unfold get_markets.
  destruct (_request _ _ _ _ _ _) as [[response|e] tr']; cbn [fst].
  - destruct (dict_is_empty response); [exists []; reflexivity |].
    destruct (response !! "markets") as [v|] eqn:E; [| exists []; reflexivity].
    destruct v; try (exists []; reflexivity). eauto.
  - destruct e; cbn [fst]; try (exists []; reflexivity). eauto.
Qed.

Lemma no_balance_lookup :
  dict_is_empty no_balance = false /\
  no_balance !! "balance" = Some (JObject []).
Proof. split; vm_compute; reflexivity. Qed.

(** [get_balance] through [get_portfolio] and [_request]: it returns the
    ['balance'] object of the portfolio when there is one, and the empty
    dictionary when the body is empty, the key is missing or its value is
    not an object; a failed request is re-raised unchanged, with the
    requests of the one underlying call as the only traffic. *)
Theorem get_balance_of_portfolio (srv : server) (max_retries : nat)
    (tr : list event) :
  get_balance srv max_retries tr
  = match _request srv max_retries "GET" "/portfolio" None tr with
    | (Ok response, tr') =>
        (Ok (match response !! "balance" with
             | Some (JObject kv) => object_dict kv
             | _ => ∅
             end), tr')
    | (Raise e, tr') => (Raise e, tr')
    end.
Proof.
  unfold get_balance, get_portfolio.
  pose proof (request_only_api_error srv max_retries "GET"
                "/portfolio" None tr) as A.
  destruct (_request _ _ _ _ _ _) as [[response|e] tr']; cbn [fst] in A.
  - destruct (dict_is_empty response) eqn:E.
    + apply bool_decide_eq_true in E. subst response.
      destruct no_balance_lookup as [-> ->]. rewrite lookup_empty.
      reflexivity.
    + rewrite E. destruct (response !! "balance") as [[]|]; reflexivity.
  - destruct e; cbn in A; try contradiction. reflexivity.
Qed.

End Queries.

(** ** Bearer token *)

Section Token.
Import KalshiToken.

(** Every token [_get_token] hands out has more than 60 seconds left at
    the time of the call, and it is the token the client keeps. *)
Theorem token_has_buffer (sign : string -> Z -> Z -> string) (now : Z)
    (c : t) :
  let out := _get_token sign now c in
  exists exp,
    token_expires (snd out) = Some exp /\
    now + TOKEN_BUFFER_SECONDS < exp /\
    last_token (snd out) = Some (fst out) /\
    api_key_id (snd out) = api_key_id c.
Proof.
  unfold _get_token, mint, TOKEN_BUFFER_SECONDS, TOKEN_EXPIRY_SECONDS.
  destruct (last_token c) as [tok|] eqn:Et;
    destruct (token_expires c) as [exp|] eqn:Ee; cbn zeta.
  2-4: eexists; cbn; repeat split; try reflexivity; lia.
  destruct (_ && _) eqn:E.
  - exists exp. apply andb_true_iff in E as [_ E]. apply Z.ltb_lt in E.
    cbn [fst snd]. repeat split; try assumption; lia.
  - eexists. cbn. repeat split; try reflexivity; lia.
Qed.

(** A token that was handed out is handed out again, without signing, for
    as long as more than 60 seconds of it remain: minted at [t0] it serves
    every call before [t0 + 240], also one whose clock reads earlier than
    [t0]; from [t0 + 240] on the next call signs a new token that expires
    300 seconds after that call. *)
Theorem token_reused_until_buffer (sign : string -> Z -> Z -> string)
    (t0 : Z) (c : t) :
  fst (mint sign t0 c) <> "" -> t0 + TOKEN_EXPIRY_SECONDS <> 0 ->
  (forall now, now < t0 + 240 ->
     _get_token sign now (snd (mint sign t0 c))
     = (fst (mint sign t0 c), snd (mint sign t0 c))) /\
  (forall now, t0 + 240 <= now ->
     _get_token sign now (snd (mint sign t0 c))
     = mint sign now (snd (mint sign t0 c))).
Proof.
  unfold mint, _get_token, TOKEN_BUFFER_SECONDS, TOKEN_EXPIRY_SECONDS.
  cbn [fst snd last_token token_expires api_key_id].
  intros Htok Hexp.
  apply String.eqb_neq in Htok. apply Z.eqb_neq in Hexp.
  rewrite Htok, Hexp. cbn [negb andb]. split; intros now H.
  - assert (E : (now <? t0 + 300 - 60) = true) by (apply Z.ltb_lt; lia).
    rewrite E. reflexivity.
  - assert (E : (now <? t0 + 300 - 60) = false) by (apply Z.ltb_ge; lia).
    rewrite E. reflexivity.
Qed.

Lemma token_reused_until_buffer_witness :
  (forall now, now < 1000 + 240 ->
     _get_token toy_sign now (snd (mint toy_sign 1000 (init "key-1")))
     = (fst (mint toy_sign 1000 (init "key-1")),
        snd (mint toy_sign 1000 (init "key-1")))) /\
  (forall now, 1000 + 240 <= now ->
     _get_token toy_sign now (snd (mint toy_sign 1000 (init "key-1")))
     = mint toy_sign now (snd (mint toy_sign 1000 (init "key-1")))).
Proof.
  apply (token_reused_until_buffer toy_sign 1000 (init "key-1")).
  - vm_compute. discriminate.
  - vm_compute. discriminate.
Defined.

End Token.

(** ** Circuit breaker, the gate as a whole *)

Section BreakerGate.
Import CircuitBreaker.

Lemma check_state (today : Z) now balance value (cb : t) :
  let cb' := fst (check_trade_allowed today now balance value cb) in
  daily_loss_limit cb' = daily_loss_limit cb /\
  max_drawdown_pct cb' = max_drawdown_pct cb /\
  max_position_value cb' = max_position_value cb /\
  orders_per_minute_limit cb' = orders_per_minute_limit cb /\
  start_balance cb' = start_balance cb /\
  peak_balance cb' = Z.max (peak_balance cb) balance /\
  last_reset_date cb' = today.
Proof.
  unfold check_trade_allowed, reset_if_new_day. cbn [fst].
  destruct (today =? last_reset_date cb) eqn:Ed; cbn [negb fst].
  - apply Z.eqb_eq in Ed.
    destruct (peak_balance cb <? balance) eqn:Ep; cbn;
      [apply Z.ltb_lt in Ep | apply Z.ltb_ge in Ep];
      repeat split; try reflexivity; try lia.
  - cbn [peak_balance].
    destruct (peak_balance cb <? balance) eqn:Ep; cbn;
      [apply Z.ltb_lt in Ep | apply Z.ltb_ge in Ep];
      repeat split; try reflexivity; try lia.
Qed.

Lemma check_trade_allowed_limits (today : Z) (now : float)
    (balance value : Z) (cb cb' : t) (r : reason) :
  check_trade_allowed today now balance value cb = (cb', Ok (true, r)) ->
  r = OK /\
  - daily_loss_limit cb' <= daily_pnl cb' /\
  balance <= peak_balance cb' /\
  (0 < peak_balance cb' ->
   exists drawdown,
     int_truediv (peak_balance cb' - balance) (peak_balance cb') = Ok drawdown
     /\ (max_drawdown_pct cb' <? drawdown)%float = false) /\
  value <= max_position_value cb' /\
  Z.of_nat (length (recent_orders now (order_timestamps cb')))
  < orders_per_minute_limit cb'.
Proof.
  intros H.
  pose proof (check_state today now balance value cb) as (_ & _ & _ & _ & _ & Hp & _).
  rewrite H in Hp. cbn [fst] in Hp.
  unfold check_trade_allowed in H. injection H as Hcb Hr.
  rewrite Hcb in Hr.
  destruct (daily_pnl cb' <? - daily_loss_limit cb') eqn:E1;
    [discriminate |]. apply Z.ltb_ge in E1.
  unfold mbind, result_bind in Hr.
  destruct (0 <? peak_balance cb') eqn:E2.
  - destruct (int_truediv _ _) as [dd|e] eqn:Ed; [| discriminate].
    destruct (max_drawdown_pct cb' <? dd)%float eqn:E3; [discriminate |].
    destruct (max_position_value cb' <? value) eqn:E4; [discriminate |].
    destruct (orders_per_minute_limit cb' <=? _) eqn:E5; [discriminate |].
    injection Hr as <-. apply Z.ltb_ge in E4. apply Z.leb_gt in E5.
    repeat split; try assumption; try lia.
    intros _. exists dd. split; [reflexivity | exact E3].
  - destruct (max_position_value cb' <? value) eqn:E4; [discriminate |].
    destruct (orders_per_minute_limit cb' <=? _) eqn:E5; [discriminate |].
    injection Hr as <-. apply Z.ltb_ge in E4, E2. apply Z.leb_gt in E5.
    repeat split; try assumption; try lia.
Qed.

(** A trade that [check_trade_allowed] lets through is within every limit
    of the breaker as the call leaves it: the day's loss is not beyond the
    limit, the drawdown from the peak (which now covers the balance) is not
    above the allowed fraction, the position value is within its cap and
    fewer orders than the per-minute limit fall in the last 60 seconds. *)
Theorem check_trade_allowed_sound (today : Z) (now : float)
    (balance value : Z) (cb cb' : t) (r : reason) :
  check_trade_allowed today now balance value cb = (cb', Ok (true, r)) ->
  r = OK /\
  - daily_loss_limit cb' <= daily_pnl cb' /\
  balance <= peak_balance cb' /\
  (0 < peak_balance cb' ->
   exists drawdown,
     int_truediv (peak_balance cb' - balance) (peak_balance cb') = Ok drawdown
     /\ (max_drawdown_pct cb' <? drawdown)%float = false) /\
  value <= max_position_value cb' /\
  Z.of_nat (length (recent_orders now (order_timestamps cb')))
  < orders_per_minute_limit cb'.
Proof. apply check_trade_allowed_limits. Qed.

Lemma check_trade_allowed_sound_witness :
  CircuitBreaker.OK = OK /\
  - daily_loss_limit busy_breaker <= daily_pnl busy_breaker /\
  49000 <= peak_balance busy_breaker /\
  (0 < peak_balance busy_breaker ->
   exists drawdown,
     int_truediv (peak_balance busy_breaker - 49000)
                 (peak_balance busy_breaker) = Ok drawdown
     /\ (max_drawdown_pct busy_breaker <? drawdown)%float = false) /\
  2320 <= max_position_value busy_breaker /\
  Z.of_nat (length (recent_orders 30%float (order_timestamps busy_breaker)))
  < orders_per_minute_limit busy_breaker.
Proof.
  apply (check_trade_allowed_sound 1 30%float 49000 2320
           busy_breaker busy_breaker OK).
  vm_compute. reflexivity.
Defined.

(** The tenth order inside a minute closes the gate: with nine orders
    recorded the trade passes, and once it is recorded too the next check
    within the minute is refused for the rate, though nothing else has
    changed. *)
Example rate_limit_at_ten_orders :
  snd (check_trade_allowed 1 30%float 49000 2320 busy_breaker)
  = Ok (true, OK) /\
  snd (check_trade_allowed 1 30%float 49000 2320
         (record_order 10%float busy_breaker))
  = Ok (false, RateLimit 10) /\
  snd (check_trade_allowed 1 70%float 49000 2320
         (record_order 10%float busy_breaker))
  = Ok (true, OK).
Proof. repeat split; vm_compute; reflexivity. Qed.

(** Over any sequence of checks and recordings, on any dates: the limits
    of the breaker and its start balance never change, and the peak balance
    never decreases (a new day resets the P&L and the window, not the
    peak). *)
Theorem breaker_peak_never_decreases (cs : list breaker_call) (cb : t) :
  let cb' := snd (run_breaker cs cb) in
  peak_balance cb <= peak_balance cb' /\
  daily_loss_limit cb' = daily_loss_limit cb /\
  max_drawdown_pct cb' = max_drawdown_pct cb /\
  max_position_value cb' = max_position_value cb /\
  orders_per_minute_limit cb' = orders_per_minute_limit cb /\
  start_balance cb' = start_balance cb.
Proof.
  revert cb. induction cs as [|c cs IH]; intros cb; cbn zeta.
  - cbn. repeat split; try reflexivity; lia.
  - destruct c as [today now b v | now | pnl]; cbn [run_breaker].
    + pose proof (check_state today now b v cb) as (H1 & H2 & H3 & H4 & H5 & H6 & _).
      destruct (check_trade_allowed today now b v cb) as [cb1 r].
      cbn [fst] in *. specialize (IH cb1). cbn zeta in IH.
      destruct (run_breaker cs cb1) as [rs cb2]. cbn [snd] in *.
      destruct IH as (I1 & I2 & I3 & I4 & I5 & I6).
      repeat split; try congruence; lia.
    + specialize (IH (record_order now cb)). cbn zeta in IH.
      destruct IH as (I1 & I2 & I3 & I4 & I5 & I6).
      repeat split; assumption.
    + specialize (IH (record_pnl pnl cb)). cbn zeta in IH.
      destruct IH as (I1 & I2 & I3 & I4 & I5 & I6).
      repeat split; assumption.
Qed.

Lemma check_same_day_timestamps (cb : t) now balance value :
  order_timestamps
    (fst (check_trade_allowed (last_reset_date cb) now balance value cb))
  = order_timestamps cb.
Proof.
  unfold check_trade_allowed. rewrite reset_same_day. cbn [fst].
  destruct (peak_balance cb <? balance); reflexivity.
Qed.

(** Within one date the window of order timestamps only grows: a check
    counts the entries of the last 60 seconds but never removes the older
    ones, so after any calls of that date the window is the old one
    followed by every recorded order, in order. *)
Theorem order_window_only_grows (cs : list breaker_call) (cb : t) :
  Forall (same_day (last_reset_date cb)) cs ->
  order_timestamps (snd (run_breaker cs cb))
  = order_timestamps cb ++ recorded_orders cs.
Proof.
  revert cb. induction cs as [|c cs IH]; intros cb Hcs.
  - cbn. rewrite app_nil_r. reflexivity.
  - inversion Hcs as [|? ? Hc Hrest]; subst.
    destruct c as [today now b v | now | pnl]; cbn [run_breaker].
    + cbn in Hc. subst today.
      pose proof (check_same_day_timestamps cb now b v) as Ht.
      pose proof (check_state (last_reset_date cb) now b v cb)
        as (_ & _ & _ & _ & _ & _ & Hd).
      destruct (check_trade_allowed _ now b v cb) as [cb1 r].
      cbn [fst] in *. specialize (IH cb1). rewrite Hd in IH.
      specialize (IH Hrest).
      destruct (run_breaker cs cb1) as [rs cb2]. cbn [snd] in *.
      rewrite IH, Ht. reflexivity.
    + rewrite (IH (record_order now cb) Hrest).
      cbn. rewrite <- app_assoc. reflexivity.
    + rewrite (IH (record_pnl pnl cb) Hrest). reflexivity.
Qed.

Lemma order_window_only_grows_witness :
  order_timestamps
    (snd (run_breaker breaker_day1_calls (CircuitBreaker.init 1)))
  = order_timestamps (CircuitBreaker.init 1)
    ++ recorded_orders breaker_day1_calls.
Proof.
  apply (order_window_only_grows breaker_day1_calls (CircuitBreaker.init 1)).
  repeat constructor.
Defined.

(** A balance at or above the peak so far is never refused for drawdown,
    provided the allowed fraction is not negative. *)
Theorem no_drawdown_at_peak (today : Z) (now : float) (balance value : Z)
    (cb : t) (drawdown : float) :
  peak_balance cb <= balance ->
  (max_drawdown_pct cb <? 0)%float = false ->
  snd (check_trade_allowed today now balance value cb)
  <> Ok (false, MaxDrawdownExceeded drawdown).
Proof.
  intros Hp Hm.
  pose proof (check_state today now balance value cb)
    as (_ & Hmd & _ & _ & _ & Hpk & _).
  unfold check_trade_allowed in *. cbn [fst snd] in *.
  set (cb' := if peak_balance (fst (reset_if_new_day today cb)) <? balance
              then set_peak_balance balance (fst (reset_if_new_day today cb))
              else fst (reset_if_new_day today cb)) in *.
  assert (Hb : peak_balance cb' = balance) by lia.
  destruct (daily_pnl cb' <? - daily_loss_limit cb'); [discriminate |].
  unfold mbind, result_bind.
  destruct (0 <? peak_balance cb') eqn:E.
  - rewrite Hb, Z.sub_diag. apply Z.ltb_lt in E. rewrite Hb in E.
    assert (D : int_truediv 0 balance = Ok zero).
    { unfold int_truediv.
      destruct (balance =? 0) eqn:E0; [apply Z.eqb_eq in E0; lia |].
      destruct (balance <? 0) eqn:E1; [apply Z.ltb_lt in E1; lia |].
      reflexivity. }
    rewrite D, Hmd. change zero with 0%float. rewrite Hm.
    destruct (_ <? value); [discriminate |].
    destruct (_ <=? _); discriminate.
  - destruct (_ <? value); [discriminate |].
    destruct (_ <=? _); discriminate.
Qed.

Lemma no_drawdown_at_peak_witness :
  snd (check_trade_allowed 2 0%float 50000 100 busy_breaker)
  <> Ok (false, MaxDrawdownExceeded 0.5%float).
Proof.
  apply (no_drawdown_at_peak 2 0%float 50000 100 busy_breaker 0.5%float).
  - vm_compute. discriminate.
  - vm_compute. reflexivity.
Defined.

End BreakerGate.

(** ** Spread evaluation, every market *)

Section Spread.

Lemma calculate_spread_fields (m : Market) (opp : Opportunity) :
  calculate_spread m = Ok (Some opp) ->
  ((type opp = "yes" /\ buy_price opp = yes_bid m /\ sell_price opp = yes_ask m)
   \/ (type opp = "no" /\ buy_price opp = no_bid m /\ sell_price opp = no_ask m
       /\ ~ viable (yes_bid m) (yes_ask m))) /\
  viable (buy_price opp) (sell_price opp) /\
  spread opp = sell_price opp - buy_price opp /\
  fees opp = 2 * KALSHI_FEE_PER_CONTRACT /\
  net_profit opp = spread opp - fees opp /\
  MIN_PROFIT_CENTS <= net_profit opp.
Proof.
  unfold calculate_spread, viable, min_viable_spread.
  unfold KALSHI_FEE_PER_CONTRACT, MIN_PROFIT_CENTS, mbind, result_bind.
  intros H.
  destruct (yes_bid m =? 0) eqn:Y1; destruct (yes_ask m =? 0) eqn:Y2;
    cbn [negb andb] in H;
    try (destruct (2 * 2 + 1 <=? yes_ask m - yes_bid m) eqn:Y3);
    try (destruct (profit_pct_of (yes_ask m - yes_bid m - 2 * 2) (yes_bid m));
         [| discriminate]);
    destruct (no_bid m =? 0) eqn:N1; destruct (no_ask m =? 0) eqn:N2;
    cbn [negb andb] in H; try discriminate H;
    try (destruct (2 * 2 + 1 <=? no_ask m - no_bid m) eqn:N3;
         [| discriminate H]);
    try (destruct (profit_pct_of (no_ask m - no_bid m - 2 * 2) (no_bid m));
         [| discriminate H]);
    injection H as <-; cbn [type buy_price sell_price spread fees net_profit];
    repeat match goal with
           | E : (_ =? _) = true |- _ => apply Z.eqb_eq in E
           | E : (_ =? _) = false |- _ => apply Z.eqb_neq in E
           | E : (_ <=? _) = true |- _ => apply Z.leb_le in E
           | E : (_ <=? _) = false |- _ => apply Z.leb_gt in E
           end;
    (split; [first [ left; repeat split; reflexivity
                   | right; repeat split; try reflexivity; intros (? & ? & ?); lia ]
            | repeat split; try assumption; lia ]).
Qed.

(** Every opportunity [calculate_spread] returns is one of the market's two
    sides, quoted on both ends, with its fields consistent: the spread is
    ask minus bid, the fees are those of two contracts, the net profit is
    the spread minus the fees and at least the minimum profit. The no side
    is returned only when the yes side is not viable. *)
Theorem calculate_spread_sound (m : Market) (opp : Opportunity) :
  calculate_spread m = Ok (Some opp) ->
  ((type opp = "yes" /\ buy_price opp = yes_bid m /\ sell_price opp = yes_ask m)
   \/ (type opp = "no" /\ buy_price opp = no_bid m /\ sell_price opp = no_ask m
       /\ ~ viable (yes_bid m) (yes_ask m))) /\
  viable (buy_price opp) (sell_price opp) /\
  spread opp = sell_price opp - buy_price opp /\
  fees opp = 2 * KALSHI_FEE_PER_CONTRACT /\
  net_profit opp = spread opp - fees opp /\
  MIN_PROFIT_CENTS <= net_profit opp.
Proof. apply calculate_spread_fields. Qed.

Lemma calculate_spread_sound_witness :
  ((type (mk_opportunity "no" 30 36 6 4 2 (PFloat 6.666666666666667%float))
    = "yes" /\ 30 = yes_bid no_side_market /\ 36 = yes_ask no_side_market)
   \/ ("no" = "no" /\ 30 = no_bid no_side_market /\ 36 = no_ask no_side_market
       /\ ~ viable (yes_bid no_side_market) (yes_ask no_side_market))) /\
  viable 30 36 /\
  6 = 36 - 30 /\
  4 = 2 * KALSHI_FEE_PER_CONTRACT /\
  2 = 6 - 4 /\
  MIN_PROFIT_CENTS <= 2.
Proof.
  apply (calculate_spread_sound no_side_market
           (mk_opportunity "no" 30 36 6 4 2 (PFloat 6.666666666666667%float))).
  vm_compute. reflexivity.
Defined.

(** [calculate_spread] answers [None] exactly when neither side is viable:
    a viable side is never passed over. *)
Theorem calculate_spread_none_iff (m : Market) :
  calculate_spread m = Ok None
  <-> ~ viable (yes_bid m) (yes_ask m) /\ ~ viable (no_bid m) (no_ask m).
Proof.
  unfold calculate_spread, viable, min_viable_spread.
  unfold KALSHI_FEE_PER_CONTRACT, MIN_PROFIT_CENTS, mbind, result_bind.
  destruct (yes_bid m =? 0) eqn:Y1; destruct (yes_ask m =? 0) eqn:Y2;
    cbn [negb andb];
    try (destruct (2 * 2 + 1 <=? yes_ask m - yes_bid m) eqn:Y3);
    try (destruct (profit_pct_of (yes_ask m - yes_bid m - 2 * 2) (yes_bid m)));
    destruct (no_bid m =? 0) eqn:N1; destruct (no_ask m =? 0) eqn:N2;
    cbn [negb andb];
    try (destruct (2 * 2 + 1 <=? no_ask m - no_bid m) eqn:N3);
    try (destruct (profit_pct_of (no_ask m - no_bid m - 2 * 2) (no_bid m)));
    repeat match goal with
           | E : (_ =? _) = true |- _ => apply Z.eqb_eq in E
           | E : (_ =? _) = false |- _ => apply Z.eqb_neq in E
           | E : (_ <=? _) = true |- _ => apply Z.leb_le in E
           | E : (_ <=? _) = false |- _ => apply Z.leb_gt in E
           end;
    (split; [ intros H; try discriminate H; split; intros (? & ? & ?); lia
            | intros [A B]; try reflexivity; exfalso;
              first [ apply A; repeat split; assumption || lia
                    | apply B; repeat split; assumption || lia ] ]).
Qed.

End Spread.

(** ** Inventory, the check the bot makes and the booking it would make *)

Section InventoryBooking.
Import InventoryManager.



(** A position that is booked changes the traded side only: its count
    grows by the quantity and its average price becomes a float, while the
    other side and the cap stay as they were. Any side other than ['yes'] is
    booked as the no side. *)
Theorem add_position_books_traded_side (inv inv' : t) (side : string)
    (quantity price : Z) :
  add_position inv side quantity price = (inv', Ok tt) ->
  max_exposure inv' = max_exposure inv /\
  (side = "yes" ->
   yes_contracts inv' = yes_contracts inv + quantity /\
   (exists f, avg_yes_price inv' = PFloat f) /\
   no_contracts inv' = no_contracts inv /\
   avg_no_price inv' = avg_no_price inv) /\
  (side <> "yes" ->
   no_contracts inv' = no_contracts inv + quantity /\
   (exists f, avg_no_price inv' = PFloat f) /\
   yes_contracts inv' = yes_contracts inv /\
   avg_yes_price inv' = avg_yes_price inv).
Proof.
  unfold add_position. intros H.
  assert (F : forall a b v, Py.truediv a b = Ok v -> exists f, v = PFloat f).
  { intros a b v. unfold Py.truediv, mbind, result_bind.
    destruct a, b;
      repeat match goal with
             | |- context [match ?r with Ok _ => _ | Raise _ => _ end] =>
                 destruct r
             end; intros E; try discriminate E; injection E as <-; eauto. }
  destruct (String.eqb side "yes") eqn:Es.
  - apply String.eqb_eq in Es.
    destruct (mbind _ _) as [total|e]; [| discriminate H].
    destruct (Py.truediv total _) as [avg|e] eqn:Ea; [| discriminate H].
    injection H as <-. cbn. destruct (F _ _ _ Ea) as [f ->].
    repeat split; try reflexivity; try (intros; congruence); eauto.
  - apply String.eqb_neq in Es.
    destruct (mbind _ _) as [total|e]; [| discriminate H].
    destruct (Py.truediv total _) as [avg|e] eqn:Ea; [| discriminate H].
    injection H as <-. cbn. destruct (F _ _ _ Ea) as [f ->].
    repeat split; try reflexivity; try (intros; congruence); eauto.
Qed.

Lemma add_position_books_traded_side_witness :
  max_exposure held_inventory = max_exposure (init MAX_EXPOSURE_CENTS) /\
  ("yes" = "yes" ->
   yes_contracts held_inventory
   = yes_contracts (init MAX_EXPOSURE_CENTS) + 100 /\
   (exists f, avg_yes_price held_inventory = PFloat f) /\
   no_contracts held_inventory = no_contracts (init MAX_EXPOSURE_CENTS) /\
   avg_no_price held_inventory = avg_no_price (init MAX_EXPOSURE_CENTS)) /\
  ("yes" <> "yes" ->
   no_contracts held_inventory
   = no_contracts (init MAX_EXPOSURE_CENTS) + 100 /\
   (exists f, avg_no_price held_inventory = PFloat f) /\
   yes_contracts held_inventory = yes_contracts (init MAX_EXPOSURE_CENTS) /\
   avg_yes_price held_inventory = avg_yes_price (init MAX_EXPOSURE_CENTS)).
Proof.
  apply (add_position_books_traded_side (init MAX_EXPOSURE_CENTS)
           held_inventory "yes" 100 50).
  vm_compute. reflexivity.
Defined.



End InventoryBooking.

(** ** Position sizing on the opportunities the evaluator finds *)

Section SizingPipeline.

(** No quotient of two amounts between 1 and 100 cents rounds to zero, and
    no half of an amount between 2 and 200. *)
Lemma cents_quotients_nonzero :
  forallb (fun b =>
             forallb (fun n => match int_truediv n b with
                               | Ok f => negb (is_zero f)
                               | Raise _ => false
                               end) (seqZ 1 100)) (seqZ 1 100) = true.
Proof. vm_compute. reflexivity. Qed.

Lemma cents_halves_nonzero :
  forallb (fun s => match int_truediv s 2 with
                    | Ok f => negb (is_zero f)
                    | Raise _ => false
                    end) (seqZ 2 199) = true.
Proof. vm_compute. reflexivity. Qed.

Lemma quotient_nonzero (n b : Z) :
  1 <= n <= 100 -> 1 <= b <= 100 ->
  exists f, int_truediv n b = Ok f /\ is_zero f = false.
Proof.
  intros Hn Hb.
  pose proof (forallb_seqZ _ 1 100 b cents_quotients_nonzero ltac:(lia)) as H.
  cbn beta in H.
  pose proof (forallb_seqZ _ 1 100 n H ltac:(lia)) as H'. cbn beta in H'.
  destruct (int_truediv n b) as [f|e]; [| discriminate].
  exists f. split; [reflexivity |]. destruct (is_zero f); [discriminate | reflexivity].
Qed.

Lemma half_nonzero (s : Z) :
  2 <= s <= 200 -> exists f, int_truediv s 2 = Ok f /\ is_zero f = false.
Proof.
  intros Hs.
  pose proof (forallb_seqZ _ 2 199 s cents_halves_nonzero ltac:(lia)) as H.
  cbn beta in H.
  destruct (int_truediv s 2) as [f|e]; [| discriminate].
  exists f. split; [reflexivity |]. destruct (is_zero f); [discriminate | reflexivity].
Qed.

Lemma float_of_int_raises (z : Z) (e : exn) :
  float_of_int z = Raise e -> e = OverflowError.
Proof.
  unfold float_of_int. destruct (is_infinity _); [| discriminate].
  intros H. injection H as <-. reflexivity.
Qed.

Lemma int_raises (a : num) (e : exn) :
  Py.int a = Raise e -> e <> ZeroDivisionError.
Proof.
  unfold Py.int, int_of_float. destruct a as [z|f]; [discriminate |].
  destruct (Prim2SF f); intros H; try discriminate H;
    injection H as <-; discriminate.
Qed.

(** The last steps of both strategies: the risk amount, its quotient by a
    nonzero price and the truncation raise no [ZeroDivisionError]. *)
Lemma size_tail_no_zero_division (balance : Z) (frac : num) (price : float) :
  is_zero price = false ->
  no_zero_division
    (risk_amount ← Py.mul (PInt balance) frac;
     q ← Py.truediv risk_amount (PFloat price);
     position_size ← Py.int q;
     Ok (clamp_position position_size)).
Proof.
  intros Hp. unfold no_zero_division, mbind, result_bind.
  unfold Py.mul, Py.arith, Py.truediv, float_truediv, mbind, result_bind.
  rewrite Hp.
  destruct frac as [z|f].
  - destruct (float_of_int (balance * z)) as [x|e] eqn:F.
    + destruct (Py.int (PFloat (x / price))) as [n|e] eqn:I;
        [discriminate |].
      apply int_raises in I. congruence.
    + apply float_of_int_raises in F. subst e. discriminate.
  - destruct (float_of_int balance) as [x|e] eqn:F.
    + destruct (Py.int (PFloat (x * f / price))) as [n|e] eqn:I;
        [discriminate |].
      apply int_raises in I. congruence.
    + apply float_of_int_raises in F. subst e. discriminate.
Qed.

(** The division by zero of the sizing functions is out of reach of the
    evaluator: for every market with quotes in range, every opportunity
    [calculate_spread] returns and every balance, [determine_position_size]
    under either strategy returns a size or raises something else than
    [ZeroDivisionError] (a balance too large for a float). *)
Theorem found_opportunity_sizes_without_zero_division (use_kelly : bool)
    (m : Market) (opp : Opportunity) (balance : Z) :
  quote_in_range (yes_bid m) -> quote_in_range (yes_ask m) ->
  quote_in_range (no_bid m) -> quote_in_range (no_ask m) ->
  calculate_spread m = Ok (Some opp) ->
  no_zero_division (determine_position_size use_kelly balance opp).
Proof.
  intros [Q1 Q1'] [Q2 Q2'] [Q3 Q3'] [Q4 Q4'] H.
  apply calculate_spread_fields in H
    as (Hside & (Hb & Ha & Hv) & Hs & Hf & Hn & Hmin).
  unfold min_viable_spread, KALSHI_FEE_PER_CONTRACT, MIN_PROFIT_CENTS in *.
  assert (Rb : 1 <= buy_price opp <= 100).
  { destruct Hside as [(_ & Eb & _) | (_ & Eb & _)]; lia. }
  assert (Rn : 1 <= net_profit opp <= 100).
  { destruct Hside as [(_ & Eb & Es) | (_ & Eb & Es & _)]; lia. }
  unfold determine_position_size. destruct use_kelly.
  - destruct (quotient_nonzero _ _ Rn Rb) as (odds & Ho & Hz).
    destruct (half_nonzero (net_profit opp + buy_price opp) ltac:(lia))
      as (avg & Hav & Hza).
    unfold mbind, result_bind. rewrite Ho.
    unfold float_truediv. change (is_zero 2) with false. cbn iota.
    unfold calculate_position_size_kelly.
    assert (G : (buy_price opp <=? 0) = false) by (apply Z.leb_gt; lia).
    rewrite G. unfold mbind, result_bind. rewrite Ho.
    unfold Py.mul at 1. unfold Py.arith. cbn iota beta.
    unfold Py.sub at 1. unfold Py.arith.
    change (float_of_int 1) with (Ok 1%float).
    unfold mbind, result_bind. cbn iota beta.
    unfold Py.sub at 1. unfold Py.arith. cbn iota beta.
    unfold Py.truediv at 1. unfold float_truediv, mbind, result_bind.
    rewrite Hz. cbn iota beta.
    unfold Py.mul at 1. unfold Py.arith. cbn iota beta.
    rewrite Hav.
    apply (size_tail_no_zero_division balance _ avg Hza).
  - unfold calculate_position_size_fixed_pct.
    unfold no_zero_division, mbind, result_bind.
    unfold Py.mul, Py.arith, Py.truediv, mbind, result_bind.
    destruct (float_of_int balance) as [x|e] eqn:F.
    + change (float_of_int 50) with (Ok 50%float). cbn iota beta.
      unfold float_truediv. change (is_zero 50) with false. cbn iota.
      destruct (Py.int _) as [n|e] eqn:I; [discriminate |].
      apply int_raises in I. congruence.
    + apply float_of_int_raises in F. subst e. discriminate.
Qed.

Lemma found_opportunity_sizes_without_zero_division_witness :
  no_zero_division
    (determine_position_size true 50000
       (mk_opportunity "yes" 40 45 5 4 1 (PFloat 2.5%float))).
Proof.
  apply (found_opportunity_sizes_without_zero_division true scenario1
           (mk_opportunity "yes" 40 45 5 4 1 (PFloat 2.5%float)) 50000).
  1-4: unfold quote_in_range; vm_compute; split; discriminate.
  vm_compute. reflexivity.
Defined.

End SizingPipeline.

(** ** Order placement, every run *)

Section Runs.

Ltac goal_cases :=
  repeat match goal with
         | |- context [match ?x with _ => _ end] => destruct x eqn:?
         end.

Ltac close_shape :=
  cbn [snd fst cancel_all TradingBotOriginal.cancel_all reports_trade];
  unfold log_call, set_circuit_breaker, TradingBotOriginal.cancel_quietly;
  cbn [calls circuit_breaker inventory_manager];
  rewrite <- ?app_assoc;
  first [ exists []; split; [symmetry; apply app_nil_r |]
        | eexists; split; [reflexivity |] ].



(** The same for [trading_bot.py]. *)
Theorem original_run_call_shape (cl : Client) (market : Market)
    (calls : list client_call) :
  let run := TradingBotOriginal.place_market_making_orders cl market calls in
  exists new,
    snd run = calls ++ new /\
    original_run_shape new (reports_trade (fst run)).
Proof.
  unfold TradingBotOriginal.place_market_making_orders. cbn zeta. goal_cases.
  all: cbn [TradingBotOriginal.cancel_all]; goal_cases.
  all: try match goal with
           | H : negb ?b = false, H' : ?b = false |- _ =>
               rewrite H' in H; discriminate H
           | H : negb false = false |- _ => discriminate H
           end.
  all: close_shape; unfold original_run_shape.
  all: first [ left; split; reflexivity
             | right; left; eexists; split; reflexivity
             | right; right; left; eexists; eexists; split; reflexivity
             | right; right; right; eexists; eexists; eexists;
               split; reflexivity ].
Qed.

End Runs.


(** ** Order placement, what every order and every trade satisfies *)

Section Orders.

Ltac hyp_cases H :=
  repeat match type of H with
         | context [match ?x with _ => _ end] => destruct x eqn:?
         end.

Ltac new_calls H :=
  cbn [snd cancel_all] in H; unfold log_call, set_circuit_breaker in H;
  cbn [calls circuit_breaker inventory_manager] in H;
  rewrite <- ?app_assoc in H;
  first [ rewrite drop_app_length in H | rewrite drop_all in H ];
  cbn [app In] in H.

(** The stages that precede an order, and the order itself. *)
Lemma placed_order_cases (cl : Client) (clock : Clock)
    (market : Market) (bot : TradingBot) (o : order_args) :
  In (PlaceOrder o)
     (drop (length (calls bot))
        (calls (snd (place_market_making_orders cl clock market bot)))) ->
  exists opp cash size cb r1 r2,
    calculate_spread market = Ok (Some opp) /\
    get_balance cl (length (calls bot)) = Ok cash /\
    determine_position_size USE_KELLY_SIZING (default 0 cash) opp = Ok size /\
    CircuitBreaker.check_trade_allowed (today clock) (check_time clock)
      (default 0 cash) (buy_price opp * size) (circuit_breaker bot)
    = (cb, Ok (true, r1)) /\
    InventoryManager.can_add_position (inventory_manager bot) (type opp)
      size (buy_price opp) = Ok (true, r2) /\
    (o = primary_order market opp size \/ o = hedge_order market opp size).
Proof.
  unfold place_market_making_orders, primary_order, hedge_order.
  intros H. hyp_cases H.
  all: new_calls H.
  all: repeat match type of H with
              | _ \/ _ => destruct H as [H | H]
              | False => destruct H
              | GetBalance = PlaceOrder _ => discriminate H
              | CancelOrder _ = PlaceOrder _ => discriminate H
              end.
  all: injection H as <-.
  all: cbn [circuit_breaker inventory_manager log_call set_circuit_breaker]
         in *.
  all: do 6 eexists; repeat split; try eassumption; try reflexivity.
  all: try match goal with
           | E : (_ =? _)%string = _ |- _ => rewrite E
           end.
  all: first [ left; reflexivity | right; reflexivity ].
Qed.

(** No order leaves [place_market_making_orders] of
    [trading_bot_CORRECTED.py] unless every stage before it succeeded: an
    opportunity was found, the balance was read, a size was computed, the
    circuit breaker allowed the trade and the inventory manager accepted the
    position. The order, primary or hedge, is a limit order on the market
    for that size, which lies within the configured bounds and whose value
    at the bid is within the breaker's position cap. *)
Theorem placed_order_passed_gates (cl : Client) (clock : Clock)
    (market : Market) (bot : TradingBot) (o : order_args) :
  In (PlaceOrder o)
     (drop (length (calls bot))
        (calls (snd (place_market_making_orders cl clock market bot)))) ->
  exists opp cash size cb r1 r2,
    calculate_spread market = Ok (Some opp) /\
    get_balance cl (length (calls bot)) = Ok cash /\
    determine_position_size USE_KELLY_SIZING (default 0 cash) opp = Ok size /\
    CircuitBreaker.check_trade_allowed (today clock) (check_time clock)
      (default 0 cash) (buy_price opp * size) (circuit_breaker bot)
    = (cb, Ok (true, r1)) /\
    InventoryManager.can_add_position (inventory_manager bot) (type opp)
      size (buy_price opp) = Ok (true, r2) /\
    o_market_id o = id market /\ o_type o = "limit" /\ o_count o = size /\
    MIN_POSITION_CONTRACTS <= o_count o <= MAX_POSITION_CONTRACTS /\
    buy_price opp * o_count o <= CircuitBreaker.max_position_value cb.
Proof.
  intros H.
  destruct (placed_order_cases _ _ _ _ _ H)
    as (opp & cash & size & cb & r1 & r2 & Hs & Hg & Hz & Hc & Hi & Ho).
  pose proof (determine_position_size_bounds _ _ _ _ Hz) as Hb.
  pose proof (check_trade_allowed_limits _ _ _ _ _ _ _ Hc)
    as (_ & _ & _ & _ & Hv & _).
  exists opp, cash, size, cb, r1, r2.
  repeat split; try assumption;
    destruct Ho as [-> | ->]; cbn; try reflexivity; lia.
Qed.

Lemma placed_order_passed_gates_witness :
  exists opp cash size cb r1 r2,
    calculate_spread wide_market = Ok (Some opp) /\
    get_balance filling_client (length (calls fresh_bot)) = Ok cash /\
    determine_position_size USE_KELLY_SIZING (default 0 cash) opp = Ok size /\
    CircuitBreaker.check_trade_allowed (today noon) (check_time noon)
      (default 0 cash) (buy_price opp * size) (circuit_breaker fresh_bot)
    = (cb, Ok (true, r1)) /\
    InventoryManager.can_add_position (inventory_manager fresh_bot) (type opp)
      size (buy_price opp) = Ok (true, r2) /\
    o_market_id (mk_order "M3" "no" 10 58 "limit") = id wide_market /\
    o_type (mk_order "M3" "no" 10 58 "limit") = "limit" /\
    o_count (mk_order "M3" "no" 10 58 "limit") = size /\
    MIN_POSITION_CONTRACTS <= o_count (mk_order "M3" "no" 10 58 "limit")
      <= MAX_POSITION_CONTRACTS /\
    buy_price opp * o_count (mk_order "M3" "no" 10 58 "limit")
      <= CircuitBreaker.max_position_value cb.
Proof.
  apply (placed_order_passed_gates filling_client noon wide_market fresh_bot
           (mk_order "M3" "no" 10 58 "limit")).
  vm_compute. right. right. left. reflexivity.
Defined.

(** A trade that [place_market_making_orders] of
    [trading_bot_CORRECTED.py] reports consists of exactly two limit orders
    on the market, for the reported size: the primary one on the
    opportunity's side one cent above the bid, the hedge on the other side
    at 100 minus the ask. Together they cost [101 - spread] cents a
    contract, at most 96. *)
Theorem trade_is_complementary_pair (cl : Client) (clock : Clock)
    (market : Market) (bot bot' : TradingBot) (r : TradeResult) :
  place_market_making_orders cl clock market bot = (Ok (Some r), bot') ->
  exists opp buy hedge,
    calculate_spread market = Ok (Some opp) /\
    calls bot' = calls bot ++ [GetBalance; PlaceOrder buy; PlaceOrder hedge] /\
    r_market_id r = id market /\ length (r_orders r) = 2%nat /\
    o_market_id buy = id market /\ o_market_id hedge = id market /\
    o_type buy = "limit" /\ o_type hedge = "limit" /\
    o_count buy = r_position_size r /\ o_count hedge = r_position_size r /\
    ((o_side buy = "yes" /\ o_side hedge = "no" /\
      o_price buy = yes_bid market + 1 /\
      o_price hedge = 100 - yes_ask market)
     \/ (o_side buy = "no" /\ o_side hedge = "yes" /\
         o_price buy = no_bid market + 1 /\
         o_price hedge = 100 - no_ask market)) /\
    o_price buy + o_price hedge = 101 - spread opp /\
    o_price buy + o_price hedge <= 96.
Proof.
  unfold place_market_making_orders. intros H. hyp_cases H;
    try discriminate H.
  all: injection H as <- <-.
  all: match goal with
       | Hs : calculate_spread _ = Ok (Some ?opp) |- _ =>
           pose proof (calculate_spread_fields _ _ Hs)
             as (Hside & _ & Hsp & Hf & Hn & Hm)
       end.
  all: unfold KALSHI_FEE_PER_CONTRACT, MIN_PROFIT_CENTS in *.
  all: do 3 eexists; split; [reflexivity |]; split;
    [cbn; rewrite <- !app_assoc; reflexivity |].
  all: cbn [r_market_id r_orders r_position_size o_market_id o_type o_count
            o_side o_price length].
  all: repeat split; try reflexivity; try lia.
  all: destruct Hside as [(Ht & Hb & Ha) | (Ht & Hb & Ha & _)];
    rewrite Ht in *; cbn in *; try discriminate;
    first [ left; repeat split; congruence
          | right; repeat split; congruence ].
Qed.

Lemma trade_is_complementary_pair_witness :
  exists opp buy hedge,
    calculate_spread wide_market = Ok (Some opp) /\
    calls (snd (place_market_making_orders filling_client noon wide_market
                  fresh_bot))
    = calls fresh_bot ++ [GetBalance; PlaceOrder buy; PlaceOrder hedge] /\
    r_market_id
      (mk_result "M3" [order_response "ord-1"; order_response "ord-2"]
                 (46 * 58) 58) = id wide_market /\
    length (r_orders
      (mk_result "M3" [order_response "ord-1"; order_response "ord-2"]
                 (46 * 58) 58)) = 2%nat /\
    o_market_id buy = id wide_market /\ o_market_id hedge = id wide_market /\
    o_type buy = "limit" /\ o_type hedge = "limit" /\
    o_count buy = 58 /\ o_count hedge = 58 /\
    ((o_side buy = "yes" /\ o_side hedge = "no" /\
      o_price buy = yes_bid wide_market + 1 /\
      o_price hedge = 100 - yes_ask wide_market)
     \/ (o_side buy = "no" /\ o_side hedge = "yes" /\
         o_price buy = no_bid wide_market + 1 /\
         o_price hedge = 100 - no_ask wide_market)) /\
    o_price buy + o_price hedge = 101 - spread opp /\
    o_price buy + o_price hedge <= 96.
Proof.
  apply (trade_is_complementary_pair filling_client noon wide_market
           fresh_bot _
           (mk_result "M3" [order_response "ord-1"; order_response "ord-2"]
                      (46 * 58) 58)).
  vm_compute. reflexivity.
Defined.

(** In [trading_bot.py] a reported trade is two orders of ten contracts,
    the hedge at [100 - (ask - 1)]: the pair costs [102 - spread] cents a
    contract, which for the smallest accepted spread is the full 100 cents
    that the pair pays out, while the expected profit reported is the
    spread times ten. *)
Theorem original_trade_pair (cl : Client) (market : Market)
    (calls calls' : list client_call) (r : TradingBotOriginal.TradeResult) :
  TradingBotOriginal.place_market_making_orders cl market calls
  = (Ok (Some r), calls') ->
  exists opp buy hedge,
    TradingBotOriginal.calculate_spread market = Ok (Some opp) /\
    calls' = calls ++ [PlaceOrder buy; PlaceOrder hedge] /\
    o_count buy = 10 /\ o_count hedge = 10 /\
    o_side buy = TradingBotOriginal.type opp /\
    o_side hedge <> o_side buy /\
    o_price buy + o_price hedge
    = 102 - (TradingBotOriginal.sell_price opp
             - TradingBotOriginal.buy_price opp) /\
    TradingBotOriginal.r_expected_profit r
    = TradingBotOriginal.spread opp * 10 /\
    Forall (fun order => truthy (dict_get order "order_id") = true)
           (TradingBotOriginal.r_orders r).
Proof.
  unfold TradingBotOriginal.place_market_making_orders. intros H.
  hyp_cases H; try discriminate H.
  all: injection H as <- <-.
  all: do 3 eexists; split; [reflexivity |]; split;
    [rewrite <- !app_assoc; reflexivity |].
  all: cbn [o_count o_side o_price TradingBotOriginal.r_expected_profit
            TradingBotOriginal.r_orders].
  all: repeat match goal with
              | E : negb _ = false |- _ => apply negb_false_iff in E
              | E : (_ =? _)%string = true |- _ => apply String.eqb_eq in E
              | E : (_ =? _)%string = false |- _ => apply String.eqb_neq in E
              end.
  all: repeat split; try reflexivity; try lia; try congruence.
  all: repeat constructor; assumption.
Qed.

Lemma original_trade_pair_witness :
  exists opp buy hedge,
    TradingBotOriginal.calculate_spread wide_market = Ok (Some opp) /\
    snd (TradingBotOriginal.place_market_making_orders filling_client
           wide_market [])
    = [] ++ [PlaceOrder buy; PlaceOrder hedge] /\
    o_count buy = 10 /\ o_count hedge = 10 /\
    o_side buy = TradingBotOriginal.type opp /\
    o_side hedge <> o_side buy /\
    o_price buy + o_price hedge
    = 102 - (TradingBotOriginal.sell_price opp
             - TradingBotOriginal.buy_price opp) /\
    TradingBotOriginal.r_expected_profit
      (TradingBotOriginal.mk_result "M3"
         [order_response "ord-0"; order_response "ord-1"] 500)
    = TradingBotOriginal.spread opp * 10 /\
    Forall (fun order => truthy (dict_get order "order_id") = true)
           (TradingBotOriginal.r_orders
              (TradingBotOriginal.mk_result "M3"
                 [order_response "ord-0"; order_response "ord-1"] 500)).
Proof.
  apply (original_trade_pair filling_client wide_market [] _
           (TradingBotOriginal.mk_result "M3"
              [order_response "ord-0"; order_response "ord-1"] 500)).
  vm_compute. reflexivity.
Defined.

(** What [KalshiClient.place_order] does with arguments that pass its
    checks. *)
Lemma place_order_valid (srv : KalshiClient.server) (market_id side : string)
    (price count : Z) (order_type : string) (tr : list KalshiClient.event) :
  valid_order side price count order_type ->
  KalshiClient.place_order srv KalshiClient.MAX_RETRIES market_id side price
    count order_type tr
  = KalshiClient._request srv KalshiClient.MAX_RETRIES "POST" "/orders"
      (Some (KalshiClient.order_body market_id side price count order_type))
      tr.
Proof.
  intros (Hs & Hp & Hc & Ht). unfold KalshiClient.place_order.
  rewrite bool_decide_eq_true_2 by (apply elem_of_pair, Hs).
  replace ((1 <=? price) && (price <=? 99)) with true
    by (symmetry; apply andb_true_iff; split; apply Z.leb_le; lia).
  replace (count <=? 0) with false by (symmetry; apply Z.leb_gt; lia).
  rewrite bool_decide_eq_true_2 by (apply elem_of_pair, Ht).
  reflexivity.
Qed.

(** The bot and the client agree on what an order is: on a market whose
    quotes are exchange prices, every order that
    [place_market_making_orders] of [trading_bot_CORRECTED.py] places passes
    the checks of [KalshiClient.place_order], which therefore sends it as
    the POST to [/orders] instead of raising [ValueError]. *)
Theorem bot_orders_pass_validation (cl : Client) (clock : Clock)
    (market : Market) (bot : TradingBot) (o : order_args) :
  exchange_quote (yes_bid market) -> exchange_quote (yes_ask market) ->
  exchange_quote (no_bid market) -> exchange_quote (no_ask market) ->
  In (PlaceOrder o)
     (drop (length (calls bot))
        (calls (snd (place_market_making_orders cl clock market bot)))) ->
  valid_order (o_side o) (o_price o) (o_count o) (o_type o) /\
  forall srv tr,
    KalshiClient.place_order srv KalshiClient.MAX_RETRIES (o_market_id o)
      (o_side o) (o_price o) (o_count o) (o_type o) tr
    = KalshiClient._request srv KalshiClient.MAX_RETRIES "POST" "/orders"
        (Some (KalshiClient.order_body (o_market_id o) (o_side o) (o_price o)
                 (o_count o) (o_type o))) tr.
Proof.
  intros [Q1 Q1'] [Q2 Q2'] [Q3 Q3'] [Q4 Q4'] H.
  destruct (placed_order_cases _ _ _ _ _ H)
    as (opp & cash & size & cb & r1 & r2 & Hs & _ & Hz & _ & _ & Ho).
  pose proof (determine_position_size_bounds _ _ _ _ Hz) as Hb.
  apply calculate_spread_fields in Hs
    as (Hside & (Hv1 & Hv2 & Hv3) & _).
  unfold min_viable_spread, KALSHI_FEE_PER_CONTRACT, MIN_PROFIT_CENTS,
    MIN_POSITION_CONTRACTS, MAX_POSITION_CONTRACTS in *.
  assert (V : valid_order (o_side o) (o_price o) (o_count o) (o_type o)).
  { unfold valid_order.
    destruct Hside as [(Ht & Eb & Ea) | (Ht & Eb & Ea & _)];
      destruct Ho as [-> | ->]; unfold primary_order, hedge_order;
      cbn [o_side o_price o_count o_type]; rewrite Ht; cbn [String.eqb];
      repeat split; try (left; reflexivity); try (right; reflexivity);
      try lia.
    all: cbn; auto. }
  split; [exact V |]. intros srv tr. apply place_order_valid, V.
Qed.

Lemma bot_orders_pass_validation_witness :
  valid_order "no" 10 58 "limit" /\
  forall srv tr,
    KalshiClient.place_order srv KalshiClient.MAX_RETRIES "M3" "no" 10 58
      "limit" tr
    = KalshiClient._request srv KalshiClient.MAX_RETRIES "POST" "/orders"
        (Some (KalshiClient.order_body "M3" "no" 10 58 "limit")) tr.
Proof.
  apply (bot_orders_pass_validation filling_client noon wide_market fresh_bot
           (mk_order "M3" "no" 10 58 "limit")).
  1-4: unfold exchange_quote; cbn; lia.
  vm_compute. right. right. left. reflexivity.
Defined.

(** On a side offered at the full 100 cents the hedge is priced at 0: the
    bot hands [place_order] a price the client refuses with [ValueError]
    before anything is sent, while the primary order of the same trade is
    one the client accepts. *)
Theorem full_ask_hedge_is_refused (market : Market) (opp : Opportunity)
    (size : Z) (srv : KalshiClient.server) (tr : list KalshiClient.event) :
  calculate_spread market = Ok (Some opp) ->
  sell_price opp = 100 ->
  let hedge := hedge_order market opp size in
  o_price hedge = 0 /\
  exists msg,
    KalshiClient.place_order srv KalshiClient.MAX_RETRIES (o_market_id hedge)
      (o_side hedge) (o_price hedge) (o_count hedge) (o_type hedge) tr
    = (Raise (ValueError msg), tr).
Proof.
  intros Hs Ha. cbn zeta. unfold hedge_order.
  cbn [o_price o_side o_market_id o_count o_type]. rewrite Ha.
  split; [reflexivity |].
  apply calculate_spread_fields in Hs as (Hside & _).
  unfold KalshiClient.place_order.
  destruct Hside as [(Ht & _) | (Ht & _)]; rewrite Ht; cbn [String.eqb];
    rewrite bool_decide_eq_true_2
      by (apply elem_of_pair; first [left; reflexivity | right; reflexivity]);
    cbn; eauto.
Qed.

Lemma full_ask_hedge_is_refused_witness :
  o_price (hedge_order full_ask_market
             (mk_opportunity "yes" 40 100 60 4 56 (PFloat 140%float)) 58) = 0
  /\
  exists msg,
    KalshiClient.place_order always_times_out KalshiClient.MAX_RETRIES
      (o_market_id (hedge_order full_ask_market
             (mk_opportunity "yes" 40 100 60 4 56 (PFloat 140%float)) 58))
      (o_side (hedge_order full_ask_market
             (mk_opportunity "yes" 40 100 60 4 56 (PFloat 140%float)) 58))
      (o_price (hedge_order full_ask_market
             (mk_opportunity "yes" 40 100 60 4 56 (PFloat 140%float)) 58))
      (o_count (hedge_order full_ask_market
             (mk_opportunity "yes" 40 100 60 4 56 (PFloat 140%float)) 58))
      (o_type (hedge_order full_ask_market
             (mk_opportunity "yes" 40 100 60 4 56 (PFloat 140%float)) 58))
      []
    = (Raise (ValueError msg), []).
Proof.
  apply (full_ask_hedge_is_refused full_ask_market
           (mk_opportunity "yes" 40 100 60 4 56 (PFloat 140%float)) 58
           always_times_out []).
  - vm_compute. reflexivity.
  - reflexivity.
Defined.

End Orders.


(** ** The scanner *)

Section Scanner.

Lemma liquid_entry_spec (ex : Exchange) (i : nat) (m : Listed) (x : Market) :
  liquid_entry ex i m = Some x
  <-> exists d, get_market ex i (market_id m) = Ok d /\
                MIN_VOLUME_THRESHOLD < d_volume d /\ x = market_of m d.
Proof.
  unfold liquid_entry. split.
  - destruct (get_market ex i (market_id m)) as [d|e]; [| discriminate].
    destruct (MIN_VOLUME_THRESHOLD <? d_volume d) eqn:E; [| discriminate].
    intros [= <-]. exists d. apply Z.ltb_lt in E. auto.
  - intros (d & -> & Hv & ->). apply Z.ltb_lt in Hv. rewrite Hv. reflexivity.
Qed.

Lemma scan_spec (ex : Exchange) (listed : list Listed) :
  forall (k : nat) (x : Market),
    x ∈ scan ex k listed
    <-> exists i entry, listed !! i = Some entry /\
                        liquid_entry ex (k + i) entry = Some x.
Proof.
  induction listed as [|m rest IH]; intros k x; cbn [scan].
  - split; [intros H; inversion H |].
    intros (i & e & H & _). rewrite lookup_nil in H. discriminate.
  - assert (Hrest : x ∈ scan ex (S k) rest
                    <-> exists i entry, rest !! i = Some entry /\
                          liquid_entry ex (k + S i) entry = Some x).
    { rewrite IH. split; intros (i & e & H1 & H2); exists i, e;
        (split; [exact H1 |]);
        [rewrite <- Nat.add_succ_comm | rewrite Nat.add_succ_comm];
        exact H2. }
    assert (Hall : (exists i entry, (m :: rest) !! i = Some entry /\
                      liquid_entry ex (k + i) entry = Some x)
                   <-> liquid_entry ex k m = Some x
                       \/ exists i entry, rest !! i = Some entry /\
                            liquid_entry ex (k + S i) entry = Some x).
    { split.
      - intros ([|i] & e & H1 & H2).
        + left. cbn in H1. injection H1 as <-.
          rewrite Nat.add_0_r in H2. exact H2.
        + right. exists i, e. split; assumption.
      - intros [H | (i & e & H1 & H2)].
        + exists 0%nat, m. rewrite Nat.add_0_r. split; [reflexivity | exact H].
        + exists (S i), e. split; assumption. }
    rewrite Hall, <- Hrest.
    destruct (liquid_entry ex k m) as [y|].
    + rewrite elem_of_cons. split.
      * intros [-> | H]; [left; reflexivity | right; exact H].
      * intros [[= ->] | H]; [left; reflexivity | right; exact H].
    + split; [intros H; right; exact H | intros [H | H]; [discriminate | exact H]].
Qed.

(** The loop of [get_liquid_markets] keeps exactly the listed markets whose
    lookup succeeded with a volume above the threshold (a volume equal to
    it is not enough), with the fields of that lookup; a lookup that raises
    costs its own market only. *)
Theorem scan_keeps_liquid_markets (ex : Exchange) (listed : list Listed)
    (x : Market) :
  x ∈ scan ex 0 listed
  <-> exists i entry d,
        listed !! i = Some entry /\
        get_market ex i (market_id entry) = Ok d /\
        MIN_VOLUME_THRESHOLD < d_volume d /\
        x = market_of entry d.
Proof.
  rewrite scan_spec. split.
  - intros (i & e & H1 & H2). apply liquid_entry_spec in H2 as (d & H2).
    exists i, e, d. cbn in H2. tauto.
  - intros (i & e & d & H1 & H2). exists i, e. split; [exact H1 |].
    apply liquid_entry_spec. exists d. exact H2.
Qed.

Lemma insert_by_volume_perm (x : Market) (l : list Market) :
  insert_by_volume x l ≡ₚ x :: l.
Proof.
  induction l as [|y l IH]; cbn [insert_by_volume]; [reflexivity |].
  destruct (volume x <? volume y); [| reflexivity].
  rewrite IH. apply Permutation_swap.
Qed.

Lemma sort_by_volume_perm (l : list Market) : sort_by_volume l ≡ₚ l.
Proof.
  induction l as [|x l IH]; cbn; [reflexivity |].
  rewrite insert_by_volume_perm. fold (sort_by_volume l). rewrite IH.
  reflexivity.
Qed.

Lemma insert_by_volume_sorted (x : Market) (l : list Market) :
  StronglySorted volume_descending l ->
  StronglySorted volume_descending (insert_by_volume x l).
Proof.
  induction 1 as [|y l Hs IH Hy]; cbn [insert_by_volume].
  - repeat constructor.
  - destruct (volume x <? volume y) eqn:E.
    + apply Z.ltb_lt in E. constructor; [exact IH |].
      rewrite insert_by_volume_perm. constructor; [| exact Hy].
      unfold volume_descending. lia.
    + apply Z.ltb_ge in E. constructor; [constructor; assumption |].
      constructor; [exact E |].
      eapply Forall_impl; [exact Hy |].
      unfold volume_descending. intros z Hz. lia.
Qed.

Lemma sort_by_volume_sorted (l : list Market) :
  StronglySorted volume_descending (sort_by_volume l).
Proof.
  induction l as [|x l IH]; cbn; [constructor |].
  apply insert_by_volume_sorted, IH.
Qed.

Lemma of_volume_insert (v : Z) (x : Market) (l : list Market) :
  of_volume v (insert_by_volume x l) = of_volume v (x :: l).
Proof.
  unfold of_volume.
  induction l as [|y l IH]; cbn [insert_by_volume]; [reflexivity |].
  destruct (volume x <? volume y) eqn:E; [| reflexivity].
  apply Z.ltb_lt in E. cbn [List.filter] in *.
  destruct (volume y =? v) eqn:Ey; destruct (volume x =? v) eqn:Ex;
    rewrite IH; try reflexivity.
  apply Z.eqb_eq in Ey, Ex. lia.
Qed.

Lemma of_volume_sort (v : Z) (l : list Market) :
  of_volume v (sort_by_volume l) = of_volume v l.
Proof.
  induction l as [|x l IH]; [reflexivity |].
  cbn [sort_by_volume foldr]. fold (sort_by_volume l).
  rewrite of_volume_insert. unfold of_volume in *. cbn [List.filter].
  rewrite IH. reflexivity.
Qed.

Lemma take_sorted (n : nat) (l : list Market) :
  StronglySorted volume_descending l ->
  StronglySorted volume_descending (take n l).
Proof.
  intros H. rewrite <- (take_drop n l) in H.
  apply StronglySorted_app_1_l in H. exact H.
Qed.

(** What [get_liquid_markets] returns, for a listing [listed]: at most ten
    of the liquid markets of the loop, the largest volume first; a liquid
    market that is left out has no more volume than any market returned,
    and then ten are returned; markets of equal volume come in the order of
    the listing; with at most ten liquid markets all of them are
    returned. A listing that cannot be fetched raises. *)
Theorem liquid_markets_are_top_ten (ex : Exchange) :
  match get_markets ex with
  | Raise e => get_liquid_markets ex = Raise e
  | Ok listed =>
      exists l,
        get_liquid_markets ex = Ok l /\
        (length l <= 10)%nat /\
        (forall m, m ∈ l -> m ∈ scan ex 0 listed) /\
        StronglySorted volume_descending l /\
        (forall x, x ∈ scan ex 0 listed -> x ∉ l ->
           length l = 10%nat /\ forall m, m ∈ l -> volume x <= volume m) /\
        (forall v, exists rest,
           of_volume v (scan ex 0 listed) = of_volume v l ++ rest) /\
        ((length (scan ex 0 listed) <= 10)%nat -> l ≡ₚ scan ex 0 listed)
  end.
Proof.
  unfold get_liquid_markets.
  destruct (get_markets ex) as [listed|e]; [| reflexivity].
  cbn. set (s := sort_by_volume (scan ex 0 listed)).
  assert (Hp : s ≡ₚ scan ex 0 listed) by apply sort_by_volume_perm.
  assert (Hs : StronglySorted volume_descending s)
    by apply sort_by_volume_sorted.
  exists (take 10 s). split; [reflexivity |].
  split; [rewrite length_take; lia |].
  split.
  { intros m Hm. rewrite <- Hp, <- (take_drop 10 s).
    apply elem_of_app. left. exact Hm. }
  split; [apply take_sorted, Hs |].
  split.
  { intros x Hx Hn. rewrite <- Hp in Hx.
    rewrite <- (take_drop 10 s) in Hx, Hs.
    apply elem_of_app in Hx as [Hx | Hx]; [contradiction |].
    split.
    - rewrite length_take.
      assert (Hd : length (drop 10 s) <> 0%nat).
      { destruct (drop 10 s); [inversion Hx | discriminate]. }
      rewrite length_drop in Hd. lia.
    - intros m Hm.
      exact (StronglySorted_app_1_elem_of _ _ _ _ _ Hs Hm Hx). }
  split.
  { intros v. exists (of_volume v (drop 10 s)).
    rewrite <- (of_volume_sort v (scan ex 0 listed)). fold s.
    unfold of_volume. rewrite <- List.filter_app, take_drop. reflexivity. }
  intros Hl. rewrite take_ge; [exact Hp |].
  rewrite Hp. exact Hl.
Qed.

End Scanner.


(** ** The trading cycle *)

Section Cycle.




(** A cycle on an exchange of thirteen markets, twelve of them liquid and
    one lookup failing, with a client that fills every order: the five
    largest markets are traded, each with a sleep, and five trades are
    counted. *)
Example cycle_on_busy_exchange :
  let out := run_once filling_client busy_exchange (fun _ => noon)
               "2026-01-01T12:00:00" fresh_bot (mk_state None 0) in
  fst (fst (fst out)) = Completed [2668; 2668; 2668; 2668; 2668] /\
  snd (fst out) = mk_state (Some "2026-01-01T12:00:00") 5 /\
  snd out = 5%nat /\
  List.map id (default [] (match get_liquid_markets busy_exchange with
                           | Ok l => Some (take 5 l)
                           | Raise _ => None
                           end))
  = ["K12"; "K11"; "K10"; "K9"; "K8"].
Proof. vm_compute. repeat split; reflexivity. Qed.

End Cycle.
